(** * Heart-disease risk form (03_ClassificationAlgorithms/app.py)

    A shallow embedding of the "Analyze" button handler of the Streamlit
    page: the reconstruction of the model's input row from the eleven
    widget values, the inference calls, the rendering of the HIGH/LOW
    block and the rule-based list of risk factors.

    Python values are modelled as they are at run time: integers as [Z],
    [float]/[numpy.float64] as binary64 primitive floats, strings as
    [string], a [dict] as an insertion-ordered association list with
    unique keys, a one-row [pandas.DataFrame] as the ordered list of its
    (column label, cell) pairs.  Exceptions are explicit: fallible code
    returns [result]. *)

From Stdlib Require Import ZArith String List Lia.
From Stdlib Require Import Floats.PrimFloat.
From stdpp Require Import base list strings.

Open Scope string_scope.
Open Scope list_scope.
Open Scope Z_scope.

(** ** Python values, exceptions, dictionaries *)

Inductive value : Type :=
| VInt (z : Z)
| VFloat (f : float).

(** Instances of [Exception] that the handler can see: the [KeyError] of a
    column selection, the [IndexError] of a subscript, and whatever the
    loaded scaler or classifier raises. *)
Inductive exn : Type :=
| KeyError (label : string)
| IndexError (index : nat) (size : nat)
| LibraryError (msg : string).

Definition result (A : Type) : Type := (exn + A)%type.

Abbreviation Ok := (@inr exn _).
Abbreviation Raise := (@inl exn _).

Definition dict : Type := list (string * value).

Fixpoint dict_get (k : string) (d : dict) : option value :=
  match d with
  | [] => None
  | (k', v) :: d' => if String.eqb k k' then Some v else dict_get k d'
  end.

(** [d[k] = v]: an existing key keeps its position, a new key goes last. *)
Fixpoint dict_set (k : string) (v : value) (d : dict) : dict :=
  match d with
  | [] => [(k, v)]
  | (k', v') :: d' =>
      if String.eqb k k' then (k', v) :: d' else (k', v') :: dict_set k v d'
  end.

(** A dict display [{k1: v1, ..., kn: vn}], evaluated left to right. *)
Definition dict_literal (items : list (string * value)) : dict :=
  fold_left (fun d kv => dict_set (fst kv) (snd kv) d) items [].

Definition dict_keys (d : dict) : list string := map fst d.

(** Subscript of a sequence by a non-negative literal index. *)
Definition getitem {A} (l : list A) (i : nat) : result A :=
  match nth_error l i with
  | Some a => Ok a
  | None => Raise (IndexError i (length l))
  end.

(** ** The widgets *)

Definition sex_options : list string := ["M"; "F"].
Definition chest_pain_options : list string := ["ATA"; "NAP"; "TA"; "ASY"].
Definition exercise_angina_options : list string := ["Y"; "N"].
Definition fasting_bs_options : list Z := [0; 1].
Definition resting_ecg_options : list string := ["Normal"; "ST"; "LVH"].
Definition st_slope_options : list string := ["Up"; "Flat"; "Down"].

(** The eleven values read from the widgets on one run of the script. *)
Record RawObservation : Type := {
  age : Z;
  sex : string;
  chest_pain : string;
  exercise_angina : string;
  resting_bp : Z;
  cholesterol : Z;
  fasting_bs : Z;
  max_hr : Z;
  resting_ecg : string;
  oldpeak : float;
  st_slope : string
}.

(** What the sliders, number inputs and select boxes can return. *)
Definition widget_values (o : RawObservation) : Prop :=
  18 <= age o <= 100 /\
  sex o ∈ sex_options /\
  chest_pain o ∈ chest_pain_options /\
  exercise_angina o ∈ exercise_angina_options /\
  80 <= resting_bp o <= 200 /\
  100 <= cholesterol o <= 600 /\
  fasting_bs o ∈ fasting_bs_options /\
  60 <= max_hr o <= 220 /\
  resting_ecg o ∈ resting_ecg_options /\
  PrimFloat.leb 0 (oldpeak o) = true /\ PrimFloat.leb (oldpeak o) 6 = true /\
  st_slope o ∈ st_slope_options.

(** ** Feature-vector builder (lines 153-171) *)

Definition raw_input (o : RawObservation) : dict :=
  dict_literal
    [ ("Age", VInt (age o));
      ("RestingBP", VInt (resting_bp o));
      ("Cholesterol", VInt (cholesterol o));
      ("FastingBS", VInt (fasting_bs o));
      ("MaxHR", VInt (max_hr o));
      ("Oldpeak", VFloat (oldpeak o));
      ("Sex_" +:+ sex o, VInt 1);
      ("ChestPainType_" +:+ chest_pain o, VInt 1);
      ("RestingECG_" +:+ resting_ecg o, VInt 1);
      ("ExerciseAngina_" +:+ exercise_angina o, VInt 1);
      ("ST_Slope_" +:+ st_slope o, VInt 1) ].

(** A data frame of one row: its columns in order, each with its cell. *)
Definition DataFrame : Type := list (string * value).

Definition columns (df : DataFrame) : list string := map fst df.

(** [pd.DataFrame([record])]: one column per key, in the dict's order. *)
Definition DataFrame_of_record (record : dict) : DataFrame := record.

(** [col in df.columns] *)
Definition has_column (col : string) (df : DataFrame) : bool :=
  existsb (String.eqb col) (columns df).

(** [df[col] = v]: overwrite the column, or append it as the last one. *)
Definition setitem (col : string) (v : value) (df : DataFrame) : DataFrame :=
  dict_set col v df.

(** [df[cols]] for a list of labels: the named columns in the order of the
    list, [KeyError] when a label is not a column. *)
Fixpoint getitem_columns (df : DataFrame) (cols : list string)
  : result DataFrame :=
  match cols with
  | [] => Ok []
  | col :: cols' =>
      match dict_get col df with
      | None => Raise (KeyError col)
      | Some v =>
          match getitem_columns df cols' with
          | inl e => Raise e
          | inr rest => Ok ((col, v) :: rest)
          end
      end
  end.

(** The loop of lines 168-170. *)
Definition fill_missing (expected_columns : list string) (input_df : DataFrame)
  : DataFrame :=
  fold_left
    (fun input_df col =>
       if negb (has_column col input_df)
       then setitem col (VInt 0) input_df
       else input_df)
    expected_columns input_df.

(** Lines 167-171: from the dict to the row handed to the scaler. *)
Definition build_input_df (raw_input : dict) (expected_columns : list string)
  : result DataFrame :=
  let input_df := DataFrame_of_record raw_input in
  let input_df := fill_missing expected_columns input_df in
  getitem_columns input_df expected_columns.

(** The cell the reconstruction gives to a column label. *)
Definition cell (raw_input : dict) (col : string) : value :=
  match dict_get col raw_input with
  | Some v => v
  | None => VInt 0
  end.

(** ** Inference and rendering (lines 173-216) *)

#[export] Instance result_ret : MRet result := fun A a => Ok a.
#[export] Instance result_bind : MBind result := fun A B f r =>
  match r with
  | inl e => Raise e
  | inr a => f a
  end.

(** Line 179: the conditional expression evaluates only the chosen
    subscript. *)
Definition risk_pct (prediction : Z) (prediction_proba : list float)
  : result float :=
  if prediction =? 1
  then p ← getitem prediction_proba 1; Ok (PrimFloat.mul p 100)
  else p ← getitem prediction_proba 0; Ok (PrimFloat.mul p 100).

Definition append_when (c : bool) (flag : string) (l : list string)
  : list string :=
  if c then l ++ [flag] else l.

(** Lines 202-208. *)
Definition risk_factors (o : RawObservation) : list string :=
  let risk_factors := [] in
  let risk_factors := append_when (age o >? 65) "Age > 65" risk_factors in
  let risk_factors := append_when (resting_bp o >? 140) "High BP" risk_factors in
  let risk_factors :=
    append_when (cholesterol o >? 240) "High Cholesterol" risk_factors in
  let risk_factors :=
    append_when (fasting_bs o =? 1) "High Fasting Sugar" risk_factors in
  let risk_factors :=
    append_when (String.eqb (exercise_angina o) "Y") "Exercise Angina"
      risk_factors in
  let risk_factors := append_when (max_hr o <? 100) "Low Max HR" risk_factors in
  risk_factors.

(** A two-dimensional float array: the scaler's output, [predict_proba]'s
    result.  [predict] gives one label per row. *)
Definition ndarray : Type := list (list float).

Record Scaler : Type := {
  transform : DataFrame -> result ndarray
}.

Record Model : Type := {
  predict : ndarray -> result (list Z);
  predict_proba : ndarray -> result ndarray
}.

(** The three module-level names bound by [load_models()]. *)
Record Globals : Type := {
  model : Model;
  scaler : Scaler;
  expected_columns : list string
}.

(** What a run of the handler does that is visible from outside: calls into
    the loaded artifacts and elements put on the page.  The two result
    blocks carry [risk_pct], which their template prints with one
    decimal. *)
Inductive event : Type :=
| called_transform (input_df : DataFrame)
| called_predict (scaled_input : ndarray)
| called_predict_proba (scaled_input : ndarray)
| st_rule
| st_subheader (title : string)
| risk_high_block (risk_pct : float)
| recommended_actions
| risk_low_block (risk_pct : float)
| healthy_lifestyle_info
| risk_factors_detected
| st_write (line : string)
| no_red_flags
| st_error (e : exn).

Record World : Type := {
  globals : Globals;
  trace : list event
}.

(** Statements: they read the globals, append to the trace of the run, and
    return or raise.  What was on the trace before a raise stays there, as
    the elements already put on the page do. *)
Definition M (A : Type) : Type := World -> World * result A.

#[export] Instance M_ret : MRet M := fun A a w => (w, Ok a).
#[export] Instance M_bind : MBind M := fun A B f m w =>
  match m w with
  | (w', inl e) => (w', Raise e)
  | (w', inr a) => f a w'
  end.

Definition read_globals : M Globals := fun w => (w, Ok (globals w)).

Definition emit (e : event) : M unit := fun w =>
  ({| globals := globals w; trace := trace w ++ [e] |}, Ok tt).

Definition lift {A} (r : result A) : M A := fun w => (w, r).

(** [try: body  except Exception as e: handler e], on the exceptions of
    type [exn], all of them instances of [Exception]. *)
Definition try_except {A} (body : M A) (handler : exn -> M A) : M A :=
  fun w =>
    match body w with
    | (w', inl e) => handler e w'
    | (w', inr a) => (w', Ok a)
    end.

Fixpoint for_each {A} (l : list A) (body : A -> M unit) : M unit :=
  match l with
  | [] => mret tt
  | a :: l' => body a;; for_each l' body
  end.

Definition scaler_transform (input_df : DataFrame) : M ndarray :=
  g ← read_globals;
  emit (called_transform input_df);;
  lift (transform (scaler g) input_df).

Definition model_predict (scaled_input : ndarray) : M (list Z) :=
  g ← read_globals;
  emit (called_predict scaled_input);;
  lift (predict (model g) scaled_input).

Definition model_predict_proba (scaled_input : ndarray) : M ndarray :=
  g ← read_globals;
  emit (called_predict_proba scaled_input);;
  lift (predict_proba (model g) scaled_input).

(** Lines 153-171 as they run inside the handler. *)
Definition feature_vector_builder (o : RawObservation) : M DataFrame :=
  let raw_input := raw_input o in
  g ← read_globals;
  lift (build_input_df raw_input (expected_columns g)).

(** Lines 177-198. *)
Definition render_result (prediction : Z) (prediction_proba : list float)
  : M unit :=
  emit st_rule;;
  emit (st_subheader "🎯 Risk Assessment Results");;
  risk_pct ← lift (risk_pct prediction prediction_proba);
  if prediction =? 1
  then emit (risk_high_block risk_pct);; emit recommended_actions
  else emit (risk_low_block risk_pct);; emit healthy_lifestyle_info.

(** Lines 200-214. *)
Definition render_risk_factors (o : RawObservation) : M unit :=
  emit (st_subheader "📊 Risk Factors Analysis");;
  let risk_factors := risk_factors o in
  match risk_factors with
  | _ :: _ =>
      emit risk_factors_detected;;
      for_each risk_factors (fun rf => emit (st_write ("• " +:+ rf)))
  | [] => emit no_red_flags
  end.

(** The body of the [try] (lines 153-214). *)
Definition analyze_body (o : RawObservation) : M unit :=
  input_df ← feature_vector_builder o;
  scaled_input ← scaler_transform input_df;
  predictions ← model_predict scaled_input;
  prediction ← lift (getitem predictions 0);
  probabilities ← model_predict_proba scaled_input;
  prediction_proba ← lift (getitem probabilities 0);
  render_result prediction prediction_proba;;
  render_risk_factors o.

(** The handler of the "Analyze" button (lines 151-216). *)
Definition analyze (o : RawObservation) : M unit :=
  try_except (analyze_body o) (fun e => emit (st_error e)).

(** ** Vocabulary of the properties *)

(** The five categorical fields, the widget value each one reads, the
    options of its select box and the column label [{field}_{value}]. *)
Inductive categorical : Type :=
| Sex | ChestPainType | RestingECG | ExerciseAngina | ST_Slope.

Definition field_name (f : categorical) : string :=
  match f with
  | Sex => "Sex"
  | ChestPainType => "ChestPainType"
  | RestingECG => "RestingECG"
  | ExerciseAngina => "ExerciseAngina"
  | ST_Slope => "ST_Slope"
  end.

Definition selected (f : categorical) (o : RawObservation) : string :=
  match f with
  | Sex => sex o
  | ChestPainType => chest_pain o
  | RestingECG => resting_ecg o
  | ExerciseAngina => exercise_angina o
  | ST_Slope => st_slope o
  end.

Definition domain (f : categorical) : list string :=
  match f with
  | Sex => sex_options
  | ChestPainType => chest_pain_options
  | RestingECG => resting_ecg_options
  | ExerciseAngina => exercise_angina_options
  | ST_Slope => st_slope_options
  end.

Definition one_hot_column (f : categorical) (v : string) : string :=
  field_name f +:+ "_" +:+ v.

(** The six numeric fields with the value read from their widget. *)
Definition numeric_fields (o : RawObservation) : list (string * value) :=
  [ ("Age", VInt (age o));
    ("RestingBP", VInt (resting_bp o));
    ("Cholesterol", VInt (cholesterol o));
    ("FastingBS", VInt (fasting_bs o));
    ("MaxHR", VInt (max_hr o));
    ("Oldpeak", VFloat (oldpeak o)) ].

(** Exactly one one-hot column of the field's domain holds 1 in the row. *)
Definition exactly_one_hot (f : categorical) (row : DataFrame) : Prop :=
  exists v, v ∈ domain f /\ (one_hot_column f v, VInt 1) ∈ row /\
    forall v', v' ∈ domain f -> (one_hot_column f v', VInt 1) ∈ row -> v' = v.

(** What a statement adds to a trace that starts empty, as the page does on
    every run of the script. *)
Definition fresh (g : Globals) : World := {| globals := g; trace := [] |}.

Definition events_of {A} (m : M A) (g : Globals) : list event :=
  trace (fst (m (fresh g))).

(** The world after some more events. *)
Definition after (w : World) (evs : list event) : World :=
  {| globals := globals w; trace := trace w ++ evs |}.

(** A statement leaves the globals alone, adds to the trace what it adds
    to an empty one, whatever the trace held before, and returns or raises
    the same. *)
Definition framed {A} (m : M A) : Prop :=
  forall w,
    m w = (after w (events_of m (globals w)), snd (m (fresh (globals w)))).

(** Lines 174-214: what follows the scaler call inside the [try]. *)
Definition after_transform (o : RawObservation) (scaled_input : ndarray)
  : M unit :=
  predictions ← model_predict scaled_input;
  prediction ← lift (getitem predictions 0);
  probabilities ← model_predict_proba scaled_input;
  prediction_proba ← lift (getitem probabilities 0);
  render_result prediction prediction_proba;;
  render_risk_factors o.

(** What lines 209-214 put under the heading of the risk factors. *)
Definition risk_factor_lines (o : RawObservation) : list event :=
  match risk_factors o with
  | [] => [no_red_flags]
  | rf :: rfs =>
      risk_factors_detected :: map (fun rf => st_write ("• " +:+ rf)) (rf :: rfs)
  end.

(** The two result blocks. *)
Definition is_risk_block (ev : event) : bool :=
  match ev with
  | risk_high_block _ | risk_low_block _ => true
  | _ => false
  end.

(** ** Sample inputs *)

(** The widgets' default values. *)
Definition default_observation : RawObservation :=
  {| age := 40; sex := "M"; chest_pain := "ATA"; exercise_angina := "Y";
     resting_bp := 120; cholesterol := 200; fasting_bs := 0; max_hr := 150;
     resting_ecg := "Normal"; oldpeak := 1%float; st_slope := "Up" |}.

Definition female_observation : RawObservation :=
  {| age := 40; sex := "F"; chest_pain := "ATA"; exercise_angina := "Y";
     resting_bp := 120; cholesterol := 200; fasting_bs := 0; max_hr := 150;
     resting_ecg := "Normal"; oldpeak := 1%float; st_slope := "Up" |}.

Definition elderly_observation : RawObservation :=
  {| age := 70; sex := "M"; chest_pain := "ATA"; exercise_angina := "N";
     resting_bp := 150; cholesterol := 200; fasting_bs := 0; max_hr := 150;
     resting_ecg := "Normal"; oldpeak := 1%float; st_slope := "Up" |}.

Definition boundary_observation : RawObservation :=
  {| age := 65; sex := "M"; chest_pain := "ATA"; exercise_angina := "N";
     resting_bp := 140; cholesterol := 240; fasting_bs := 0; max_hr := 100;
     resting_ecg := "Normal"; oldpeak := 1%float; st_slope := "Up" |}.

(** A column list as one-hot encoding with the first level of each field
    dropped leaves it: no [Sex_F], [ChestPainType_ASY], [RestingECG_LVH],
    [ExerciseAngina_N] or [ST_Slope_Down]. *)
Definition sample_columns : list string :=
  [ "Age"; "RestingBP"; "Cholesterol"; "FastingBS"; "MaxHR"; "Oldpeak";
    "Sex_M"; "ChestPainType_ATA"; "ChestPainType_NAP"; "ChestPainType_TA";
    "RestingECG_Normal"; "RestingECG_ST"; "ExerciseAngina_Y";
    "ST_Slope_Flat"; "ST_Slope_Up" ].

Definition failing_scaler : Scaler :=
  {| transform := fun _ => Raise (LibraryError "X has 15 features") |}.

Definition constant_scaler : Scaler :=
  {| transform := fun df => Ok [map (fun _ => 0%float) df] |}.

Definition constant_model (label : Z) (proba : list float) : Model :=
  {| predict := fun _ => Ok [label];
     predict_proba := fun _ => Ok [proba] |}.

Definition failing_model : Model :=
  {| predict := fun _ => Raise (LibraryError "predict failed");
     predict_proba := fun _ => Raise (LibraryError "predict_proba failed") |}.

Definition half_failing_model : Model :=
  {| predict := fun _ => Ok [1];
     predict_proba := fun _ => Raise (LibraryError "predict_proba failed") |}.

Definition sample_globals (m : Model) (s : Scaler) : Globals :=
  {| model := m; scaler := s; expected_columns := sample_columns |}.

(** ** The start of the script and a whole run (lines 1-225) *)

(** What [joblib.load] gives for each of the three files of the working
    directory: an exception, or the stored object, taken at the type the
    script uses it at. *)
Record Files : Type := {
  KNN_Heart_pkl : result Model;
  scaler_pkl : result Scaler;
  columns_pkl : result (list string)
}.

(** What a run of the script does, in order: the files it opens and the
    parts of the page it renders.  The events of the button's handler are
    those of [analyze]. *)
Inductive script_event : Type :=
| page_config
| style_sheet
| joblib_load (file : string)
| models_not_found (e : exn)
| main_header
| about_expander
| input_widgets
| summary_metrics (o : RawObservation)
| analyze_button
| from_handler (ev : event)
| footer_rule
| footer.

Definition Startup (A : Type) : Type := (list script_event * result A)%type.

#[export] Instance Startup_ret : MRet Startup := fun A a => ([], Ok a).
#[export] Instance Startup_bind : MBind Startup := fun A B f m =>
  match m with
  | (evs, inl e) => (evs, Raise e)
  | (evs, inr a) =>
      match f a with
      | (evs', r) => (evs ++ evs', r)
      end
  end.

Definition load {A} (file : string) (content : result A) : Startup A :=
  ([joblib_load file], content).

(** The body of the [try] of [load_models] (lines 80-83). *)
Definition load_models_body (fs : Files) : Startup Globals :=
  model ← load "KNN_Heart.pkl" (KNN_Heart_pkl fs);
  scaler ← load "scaler.pkl" (scaler_pkl fs);
  columns ← load "columns.pkl" (columns_pkl fs);
  mret {| model := model; scaler := scaler; expected_columns := columns |}.

(** [load_models()] (lines 78-86): the three objects, or [None] when
    [st.stop()] ended the run after the error message. *)
Definition load_models (fs : Files) : list script_event * option Globals :=
  match load_models_body fs with
  | (evs, inr g) => (evs, Some g)
  | (evs, inl e) => (evs ++ [models_not_found e], None)
  end.

(** What one run of the script starts from: the files, the values the
    widgets hold, and whether the button was just pressed. *)
Record Session : Type := {
  files : Files;
  widgets : RawObservation;
  button_pressed : bool
}.

(** One run of the script, top to bottom.  An exception that left the
    handler would end the run where it was raised. *)
Definition script (s : Session) : list script_event :=
  [page_config; style_sheet] ++
  match load_models (files s) with
  | (evs, None) => evs
  | (evs, Some g) =>
      evs ++
      [ main_header; about_expander; input_widgets;
        summary_metrics (widgets s); analyze_button ] ++
      (if button_pressed s
       then
         match analyze (widgets s) (fresh g) with
         | (w, inr _) => map from_handler (trace w) ++ [footer_rule; footer]
         | (w, inl _) => map from_handler (trace w)
         end
       else [footer_rule; footer])
  end.

(** Kinds of events. *)
Definition is_call (ev : event) : bool :=
  match ev with
  | called_transform _ | called_predict _ | called_predict_proba _ => true
  | _ => false
  end.

Definition is_error (ev : event) : bool :=
  match ev with
  | st_error _ => true
  | _ => false
  end.

Definition is_write (ev : event) : bool :=
  match ev with
  | st_write _ => true
  | _ => false
  end.

Definition is_from_handler (ev : script_event) : bool :=
  match ev with
  | from_handler _ => true
  | _ => false
  end.

(** The six flags, in the order of lines 203-208. *)
Definition all_risk_flags : list string :=
  [ "Age > 65"; "High BP"; "High Cholesterol"; "High Fasting Sugar";
    "Exercise Angina"; "Low Max HR" ].

(** Observations that differ at most in the value selected for one
    categorical field. *)
Definition same_but_for (f : categorical) (o1 o2 : RawObservation) : Prop :=
  numeric_fields o1 = numeric_fields o2 /\
  forall f', f' <> f -> selected f' o1 = selected f' o2.

Definition single_class_model (label : Z) (p : float) : Model :=
  {| predict := fun _ => Ok [label];
     predict_proba := fun _ => Ok [[p]] |}.

Definition empty_model : Model :=
  {| predict := fun _ => Ok [];
     predict_proba := fun _ => Ok [] |}.

Definition sample_files (m : result Model) (s : result Scaler) : Files :=
  {| KNN_Heart_pkl := m; scaler_pkl := s; columns_pkl := Ok sample_columns |}.

(** * Properties *)

(** ** Dictionaries and one-row frames *)

Section DictFacts.
Implicit Types (k col : string) (v : value) (d : dict) (df : DataFrame).

Lemma dict_get_cons_eq k v d : dict_get k ((k, v) :: d) = Some v.
Proof. simpl. now rewrite String.eqb_refl. Qed.

Lemma dict_get_cons_ne k k' v d :
  k <> k' -> dict_get k ((k', v) :: d) = dict_get k d.
Proof.
  intros Hne. simpl.
  destruct (String.eqb_spec k k') as [Heq | _]; [contradiction | reflexivity].
Qed.

Lemma dict_get_set k k' v d :
  dict_get k (dict_set k' v d) =
    if String.eqb k k' then Some v else dict_get k d.
Proof.
  induction d as [| [k0 v0] d IH]; simpl.
  - reflexivity.
  - destruct (String.eqb_spec k' k0) as [-> | Hne]; simpl.
    + destruct (String.eqb k k0); reflexivity.
    + rewrite IH.
      destruct (String.eqb_spec k k0) as [-> | _]; [| reflexivity].
      destruct (String.eqb_spec k0 k') as [E | _]; [| reflexivity].
      now elim Hne.
Qed.

Lemma has_column_get col df :
  has_column col df = true <-> dict_get col df <> None.
Proof.
  unfold has_column, columns.
  induction df as [| [k0 v0] df IH]; simpl.
  - split; [discriminate | intros H; now elim H].
  - destruct (String.eqb col k0); simpl; [| exact IH].
    split; [discriminate | reflexivity].
Qed.

Lemma dict_get_keys k d : dict_get k d <> None <-> k ∈ dict_keys d.
Proof.
  unfold dict_keys.
  induction d as [| [k0 v0] d IH]; simpl.
  - split; [intros H; now elim H | intros H; inversion H].
  - rewrite elem_of_cons.
    destruct (String.eqb_spec k k0) as [-> | Hne].
    + split; [now left | discriminate].
    + rewrite IH. split; [now right | intros [E | H]; [contradiction | exact H]].
Qed.

(** The loop gives every label the cell it had, and 0 to the labels of
    the list that had none. *)
Lemma dict_get_fill_missing cols : forall df col,
  dict_get col (fill_missing cols df) =
    match dict_get col df with
    | Some v => Some v
    | None => if existsb (String.eqb col) cols then Some (VInt 0) else None
    end.
Proof.
  unfold fill_missing.
  induction cols as [| c cols IH]; intros df col; simpl.
  - now destruct (dict_get col df).
  - rewrite IH. clear IH.
    destruct (has_column c df) eqn:Hc; simpl.
    + apply has_column_get in Hc.
      destruct (dict_get col df) eqn:Hcol; [reflexivity |].
      destruct (String.eqb_spec col c) as [-> | _]; [contradiction | reflexivity].
    + unfold setitem. rewrite dict_get_set.
      assert (Hnone : dict_get c df = None).
      { destruct (dict_get c df) eqn:E; [| reflexivity].
        assert (H : has_column c df = true) by (apply has_column_get; congruence).
        congruence. }
      destruct (String.eqb_spec col c) as [-> | _]; simpl.
      * now rewrite Hnone.
      * reflexivity.
Qed.

Lemma existsb_eqb_elem col (cols : list string) :
  existsb (String.eqb col) cols = true <-> col ∈ cols.
Proof.
  induction cols as [| c cols IH]; simpl.
  - split; [discriminate | intros H; inversion H].
  - rewrite elem_of_cons, orb_true_iff, IH.
    destruct (String.eqb_spec col c); intuition congruence.
Qed.

Lemma getitem_columns_cells df (f : string -> value) cols :
  (forall col, col ∈ cols -> dict_get col df = Some (f col)) ->
  getitem_columns df cols = Ok (map (fun col => (col, f col)) cols).
Proof.
  induction cols as [| c cols IH]; intros Hall; simpl.
  - reflexivity.
  - rewrite (Hall c) by apply list_elem_of_here.
    rewrite IH; [reflexivity |].
    intros col Hin. apply Hall, list_elem_of_further, Hin.
Qed.

(** The row handed to the scaler, in closed form. *)
Lemma build_input_df_cells (raw : dict) (schema : list string) :
  build_input_df raw schema = Ok (map (fun col => (col, cell raw col)) schema).
Proof.
  unfold build_input_df, DataFrame_of_record.
  apply getitem_columns_cells. intros col Hin.
  rewrite dict_get_fill_missing. unfold cell.
  destruct (dict_get col raw); [reflexivity |].
  apply existsb_eqb_elem in Hin. now rewrite Hin.
Qed.

Lemma elem_of_cells (raw : dict) (schema : list string) col (x : value) :
  (col, x) ∈ map (fun col => (col, cell raw col)) schema <->
  col ∈ schema /\ x = cell raw col.
Proof.
  rewrite list_elem_of_fmap. split.
  - intros (c & [= -> ->] & Hin). now split.
  - intros [Hin ->]. now exists col.
Qed.

Lemma columns_cells (raw : dict) (schema : list string) :
  columns (map (fun col => (col, cell raw col)) schema) = schema.
Proof.
  unfold columns. rewrite map_map. simpl. apply map_id.
Qed.
End DictFacts.

(** ** The dictionary of line 153 *)

(** The eleven keys are pairwise different whatever the selections are, so
    the dict display keeps its eleven items in the order written. *)
Lemma raw_input_items (o : RawObservation) :
  raw_input o =
    (numeric_fields o ++
     [ (one_hot_column Sex (sex o), VInt 1);
       (one_hot_column ChestPainType (chest_pain o), VInt 1);
       (one_hot_column RestingECG (resting_ecg o), VInt 1);
       (one_hot_column ExerciseAngina (exercise_angina o), VInt 1);
       (one_hot_column ST_Slope (st_slope o), VInt 1) ])%list.
Proof. reflexivity. Qed.

Ltac spell_keys :=
  cbv [one_hot_column field_name selected numeric_fields app String.append].

Ltac skip_other_keys :=
  repeat (rewrite dict_get_cons_ne by (intros ?; congruence)).

Lemma raw_input_numeric (o : RawObservation) (name : string) (v : value) :
  (name, v) ∈ numeric_fields o -> dict_get name (raw_input o) = Some v.
Proof.
  unfold numeric_fields. rewrite !elem_of_cons, elem_of_nil.
  intros H. decompose [or] H; clear H;
    match goal with
    | E : (_, _) = (_, _) |- _ => injection E as -> ->; reflexivity
    | F : False |- _ => destruct F
    end.
Qed.

Lemma raw_input_selected (o : RawObservation) (f : categorical) :
  dict_get (one_hot_column f (selected f o)) (raw_input o) = Some (VInt 1).
Proof.
  rewrite raw_input_items.
  destruct f; spell_keys; skip_other_keys; apply dict_get_cons_eq.
Qed.

Lemma raw_input_not_selected (o : RawObservation) (f : categorical) (v : string) :
  v <> selected f o -> dict_get (one_hot_column f v) (raw_input o) = None.
Proof.
  intros Hne. rewrite raw_input_items.
  destruct f; revert Hne; spell_keys; intros Hne; skip_other_keys; reflexivity.
Qed.

Lemma one_hot_column_inj (f : categorical) (v v' : string) :
  one_hot_column f v = one_hot_column f v' -> v = v'.
Proof. destruct f; spell_keys; congruence. Qed.

(** ** Shape of the row *)

(** C1: for every observation and every column list, the row built by lines
    167-171 exists (no exception), has as many entries as the column list,
    and its column labels are the column list, in the same order. *)
Theorem input_df_follows_expected_columns
    (o : RawObservation) (schema : list string) :
  exists input_df,
    build_input_df (raw_input o) schema = Ok input_df /\
    length input_df = length schema /\
    columns input_df = schema.
Proof.
  eexists. split; [apply build_input_df_cells |].
  split; [apply length_map | apply columns_cells].
Qed.

(** ** One-hot columns *)

(** What the builder does with the one-hot columns of a categorical field,
    first in the frame as the filling loop leaves it, then in the row
    selected by the column list. *)
Lemma one_hot_cells (o : RawObservation) (f : categorical) (v : string) :
  cell (raw_input o) (one_hot_column f v) =
    if String.eqb v (selected f o) then VInt 1 else VInt 0.
Proof.
  unfold cell. destruct (String.eqb_spec v (selected f o)) as [-> | Hne].
  - now rewrite raw_input_selected.
  - now rewrite raw_input_not_selected.
Qed.

(** C2, as the code has it: for every observation and each of the five
    categorical fields, the column of the selected value holds 1 in the
    frame the filling loop leaves, and it is the only column of the field
    that does; in the row selected by the column list that column is kept,
    still 1, exactly when the column list names it, so the row has exactly
    one hot column of the field when it does and none when it does not;
    every other column of the field holds 0, in the frame and in the row,
    and is there exactly when the column list names it. *)
Theorem one_hot_columns_of_field
    (o : RawObservation) (schema : list string) (f : categorical) :
  let key := one_hot_column f (selected f o) in
  let filled := fill_missing schema (DataFrame_of_record (raw_input o)) in
  exists input_df,
    build_input_df (raw_input o) schema = Ok input_df /\
    dict_get key filled = Some (VInt 1) /\
    (forall x, (key, x) ∈ input_df <-> key ∈ schema /\ x = VInt 1) /\
    ((key ∉ schema) -> forall v, (one_hot_column f v, VInt 1) ∉ input_df) /\
    (forall v, v <> selected f o ->
       dict_get (one_hot_column f v) filled =
         (if bool_decide (one_hot_column f v ∈ schema)
          then Some (VInt 0) else None) /\
       forall x, (one_hot_column f v, x) ∈ input_df <->
                 one_hot_column f v ∈ schema /\ x = VInt 0) /\
    (selected f o ∈ domain f -> (exactly_one_hot f input_df <-> key ∈ schema)).
Proof.
  intros key filled. subst key filled.
  eexists. split; [apply build_input_df_cells |].
  assert (Hsel : forall x,
    (one_hot_column f (selected f o), x)
      ∈ map (fun col => (col, cell (raw_input o) col)) schema <->
    one_hot_column f (selected f o) ∈ schema /\ x = VInt 1).
  { intros x. rewrite elem_of_cells, one_hot_cells.
    now rewrite String.eqb_refl. }
  assert (Hother : forall v x, v <> selected f o ->
    (one_hot_column f v, x)
      ∈ map (fun col => (col, cell (raw_input o) col)) schema <->
    one_hot_column f v ∈ schema /\ x = VInt 0).
  { intros v x Hne. rewrite elem_of_cells, one_hot_cells.
    destruct (String.eqb_spec v (selected f o)) as [-> | _];
      [contradiction | reflexivity]. }
  split; [| split; [exact Hsel | split; [| split]]].
  - rewrite dict_get_fill_missing. unfold DataFrame_of_record.
    now rewrite raw_input_selected.
  - intros Hnot v Hin.
    destruct (String.eqb_spec v (selected f o)) as [-> | Hne].
    + apply Hsel in Hin. now destruct Hin.
    + apply (Hother v _ Hne) in Hin. destruct Hin as [_ Hx]. discriminate Hx.
  - intros v Hne. split; [| intros x; now apply Hother].
    rewrite dict_get_fill_missing. unfold DataFrame_of_record.
    rewrite raw_input_not_selected by exact Hne.
    case_bool_decide as Hin.
    + apply existsb_eqb_elem in Hin. now rewrite Hin.
    + destruct (existsb _ schema) eqn:E; [| reflexivity].
      apply existsb_eqb_elem in E. contradiction.
  - intros Hdom. split.
    + intros (v & _ & Hin & _).
      destruct (String.eqb_spec v (selected f o)) as [-> | Hne].
      * apply Hsel in Hin. now destruct Hin.
      * apply (Hother v _ Hne) in Hin. destruct Hin as [_ Hx]. discriminate Hx.
    + intros Hkey. exists (selected f o).
      split; [exact Hdom |]. split; [now apply Hsel |].
      intros v' _ Hin.
      destruct (String.eqb_spec v' (selected f o)) as [-> | Hne]; [reflexivity |].
      apply (Hother v' _ Hne) in Hin. destruct Hin as [_ Hx]. discriminate Hx.
Qed.

(** On the sample column list, a female patient's row has the column of
    the other sex at 0 and no column for hers. *)
Lemma female_row :
  build_input_df (raw_input female_observation) sample_columns =
    Ok [ ("Age", VInt 40); ("RestingBP", VInt 120); ("Cholesterol", VInt 200);
         ("FastingBS", VInt 0); ("MaxHR", VInt 150); ("Oldpeak", VFloat 1);
         ("Sex_M", VInt 0); ("ChestPainType_ATA", VInt 1);
         ("ChestPainType_NAP", VInt 0); ("ChestPainType_TA", VInt 0);
         ("RestingECG_Normal", VInt 1); ("RestingECG_ST", VInt 0);
         ("ExerciseAngina_Y", VInt 1); ("ST_Slope_Flat", VInt 0);
         ("ST_Slope_Up", VInt 1) ].
Proof. vm_compute. reflexivity. Qed.

Lemma sample_observations_from_widgets :
  widget_values default_observation /\ widget_values female_observation /\
  widget_values elderly_observation /\ widget_values boundary_observation.
Proof.
  unfold widget_values; simpl.
  repeat split; try lia; try reflexivity;
    apply (bool_decide_unpack _); vm_compute; exact I.
Qed.

(** C2 as worded fails there: the widgets can give sex "F", the column
    list has no [Sex_F], the row is built without error, and no column of
    the field Sex holds 1 in it. *)
Lemma one_hot_missing_for_unseen_value :
  widget_values female_observation /\
  exists input_df,
    build_input_df (raw_input female_observation) sample_columns = Ok input_df /\
    ~ exactly_one_hot Sex input_df.
Proof.
  split; [apply sample_observations_from_widgets |].
  eexists. split; [apply female_row |].
  intros (v & Hv & Hin & _).
  apply list_elem_of_In in Hin. simpl in Hin.
  decompose [or] Hin; clear Hin;
    match goal with
    | E : (_, _) = (_, _) |- _ => try discriminate E
    | F : False |- _ => destruct F
    end.
  all: match goal with
       | E : (_, _) = (_, _) |- _ =>
           injection E as E; revert E; spell_keys; intros E
       end.
  all: discriminate.
Qed.

(** The one-hot theorem on the sample column list, for a female patient:
    no column of the field Sex is hot, and [Sex_M] is there with 0. *)
Lemma one_hot_columns_of_field_witness :
  exists input_df,
    build_input_df (raw_input female_observation) sample_columns = Ok input_df /\
    (forall v, (one_hot_column Sex v, VInt 1) ∉ input_df) /\
    (one_hot_column Sex "M", VInt 0) ∈ input_df /\
    exactly_one_hot ChestPainType input_df.
Proof.
  destruct (one_hot_columns_of_field female_observation sample_columns Sex)
    as (input_df & Hbuild & _ & _ & Hnone & Hother & _).
  destruct (one_hot_columns_of_field female_observation sample_columns
              ChestPainType)
    as (input_df' & Hbuild' & _ & _ & _ & _ & Hone).
  rewrite Hbuild in Hbuild'. injection Hbuild' as <-.
  exists input_df. split; [exact Hbuild |]. split; [| split].
  - apply Hnone. apply (bool_decide_unpack _). vm_compute. exact I.
  - apply (Hother "M"); [discriminate |].
    split; [| reflexivity].
    apply (bool_decide_unpack _). vm_compute. exact I.
  - apply Hone; apply (bool_decide_unpack _); vm_compute; exact I.
Defined.

(** ** Statements *)

Section Statements.
Implicit Types (w : World) (evs : list event).

Lemma after_after (w : World) (evs evs' : list event) :
  after (after w evs) evs' = after w (evs ++ evs').
Proof. unfold after. simpl. now rewrite app_assoc. Qed.

Lemma after_nil (w : World) : after w [] = w.
Proof. destruct w. unfold after. simpl. now rewrite app_nil_r. Qed.

Lemma run_bind {A B} (m : M A) (f : A -> M B) (w : World) :
  (m ≫= f) w =
    match m w with
    | (w', inl e) => (w', Raise e)
    | (w', inr a) => f a w'
    end.
Proof. reflexivity. Qed.

Lemma run_emit (ev : event) (w : World) : emit ev w = (after w [ev], Ok tt).
Proof. reflexivity. Qed.

Lemma framed_intro {A} (m : M A) :
  (forall w, exists evs r,
      m w = (after w evs, r) /\ m (fresh (globals w)) = (after (fresh (globals w)) evs, r)) ->
  framed m.
Proof.
  intros H w. destruct (H w) as (evs & r & Hw & Hf).
  unfold events_of. rewrite Hw, Hf. reflexivity.
Qed.

Lemma framed_elim {A} (m : M A) (g : Globals) :
  framed m ->
  exists evs r, forall w, globals w = g -> m w = (after w evs, r).
Proof.
  intros H. exists (events_of m g), (snd (m (fresh g))).
  intros w <-. apply H.
Qed.

Lemma framed_ret {A} (a : A) : framed (mret a : M A).
Proof.
  apply framed_intro. intros w. exists [], (Ok a).
  rewrite !after_nil. split; reflexivity.
Qed.

Lemma framed_lift {A} (r : result A) : framed (lift r).
Proof.
  apply framed_intro. intros w. exists [], r.
  rewrite !after_nil. split; reflexivity.
Qed.

Lemma framed_bind {A B} (m : M A) (f : A -> M B) :
  framed m -> (forall a, framed (f a)) -> framed (m ≫= f).
Proof.
  intros Hm Hf. apply framed_intro. intros w.
  destruct (framed_elim m (globals w) Hm) as (evs & r & Hrun).
  rewrite !run_bind, (Hrun w eq_refl), (Hrun (fresh (globals w)) eq_refl).
  destruct r as [e | a].
  - exists evs, (Raise e). split; reflexivity.
  - destruct (framed_elim (f a) (globals w) (Hf a)) as (evs' & r' & Hrun').
    exists (evs ++ evs'), r'.
    rewrite (Hrun' (after w evs) eq_refl).
    rewrite (Hrun' (after (fresh (globals w)) evs) eq_refl).
    rewrite !after_after. split; reflexivity.
Qed.
End Statements.

Lemma framed_emit (ev : event) : framed (emit ev).
Proof.
  apply framed_intro. intros w. exists [ev], (Ok tt). split; reflexivity.
Qed.

Lemma framed_read_globals : framed read_globals.
Proof.
  apply framed_intro. intros w. exists [], (Ok (globals w)).
  rewrite !after_nil. split; reflexivity.
Qed.

Lemma run_try {A} (body : M A) (handler : exn -> M A) (w : World) :
  try_except body handler w =
    match body w with
    | (w', inl e) => handler e w'
    | (w', inr a) => (w', Ok a)
    end.
Proof. reflexivity. Qed.

Lemma framed_try {A} (body : M A) (handler : exn -> M A) :
  framed body -> (forall e, framed (handler e)) ->
  framed (try_except body handler).
Proof.
  intros Hb Hh. apply framed_intro. intros w.
  destruct (framed_elim body (globals w) Hb) as (evs & r & Hrun).
  rewrite !run_try, (Hrun w eq_refl), (Hrun (fresh (globals w)) eq_refl).
  destruct r as [e | a].
  - destruct (framed_elim (handler e) (globals w) (Hh e)) as (evs' & r' & Hrun').
    exists (evs ++ evs'), r'.
    rewrite (Hrun' (after w evs) eq_refl).
    rewrite (Hrun' (after (fresh (globals w)) evs) eq_refl).
    rewrite !after_after. split; reflexivity.
  - exists evs, (Ok a). split; reflexivity.
Qed.

Lemma framed_for_each {A} (l : list A) (body : A -> M unit) :
  (forall a, framed (body a)) -> framed (for_each l body).
Proof.
  intros Hb. induction l as [| a l IH]; simpl.
  - apply framed_ret.
  - apply framed_bind; [apply Hb | intros _; exact IH].
Qed.

Ltac framed_step :=
  first [ apply framed_bind | apply framed_emit | apply framed_lift
        | apply framed_ret | apply framed_read_globals
        | apply framed_for_each | apply framed_try ].

Ltac framed_auto := repeat (intros; framed_step).

Lemma framed_scaler_transform (input_df : DataFrame) :
  framed (scaler_transform input_df).
Proof. unfold scaler_transform. framed_auto. Qed.

Lemma framed_model_predict (scaled_input : ndarray) :
  framed (model_predict scaled_input).
Proof. unfold model_predict. framed_auto. Qed.

Lemma framed_model_predict_proba (scaled_input : ndarray) :
  framed (model_predict_proba scaled_input).
Proof. unfold model_predict_proba. framed_auto. Qed.

Lemma framed_feature_vector_builder (o : RawObservation) :
  framed (feature_vector_builder o).
Proof. unfold feature_vector_builder. framed_auto. Qed.

Lemma framed_render_result (prediction : Z) (prediction_proba : list float) :
  framed (render_result prediction prediction_proba).
Proof.
  unfold render_result. framed_auto.
  destruct (prediction =? 1); framed_auto.
Qed.

Lemma framed_render_risk_factors (o : RawObservation) :
  framed (render_risk_factors o).
Proof.
  unfold render_risk_factors. framed_auto.
  destruct (risk_factors o); framed_auto.
Qed.

Lemma framed_after_transform (o : RawObservation) (scaled_input : ndarray) :
  framed (after_transform o scaled_input).
Proof.
  unfold after_transform.
  repeat first
    [ apply framed_model_predict | apply framed_model_predict_proba
    | apply framed_render_result | apply framed_render_risk_factors
    | framed_step | intros ? ].
Qed.

Lemma analyze_body_split (o : RawObservation) :
  analyze_body o =
    (feature_vector_builder o ≫= fun input_df =>
     scaler_transform input_df ≫= after_transform o).
Proof. reflexivity. Qed.

Lemma framed_analyze (o : RawObservation) : framed (analyze o).
Proof.
  unfold analyze. apply framed_try; [| intros e; apply framed_emit].
  rewrite analyze_body_split.
  apply framed_bind; [apply framed_feature_vector_builder | intros input_df].
  apply framed_bind; [apply framed_scaler_transform | intros scaled_input].
  apply framed_after_transform.
Qed.

Lemma run_feature_vector_builder (o : RawObservation) (w : World) :
  feature_vector_builder o w =
    (w, Ok (map (fun col => (col, cell (raw_input o) col))
              (expected_columns (globals w)))).
Proof.
  unfold feature_vector_builder. rewrite run_bind. simpl.
  unfold lift. now rewrite build_input_df_cells.
Qed.

Lemma run_scaler_transform (input_df : DataFrame) (w : World) :
  scaler_transform input_df w =
    (after w [called_transform input_df],
     transform (scaler (globals w)) input_df).
Proof. reflexivity. Qed.

Lemma run_model_predict (scaled_input : ndarray) (w : World) :
  model_predict scaled_input w =
    (after w [called_predict scaled_input],
     predict (model (globals w)) scaled_input).
Proof. reflexivity. Qed.

Lemma run_model_predict_proba (scaled_input : ndarray) (w : World) :
  model_predict_proba scaled_input w =
    (after w [called_predict_proba scaled_input],
     predict_proba (model (globals w)) scaled_input).
Proof. reflexivity. Qed.

Lemma run_lift {A} (r : result A) (w : World) : lift r w = (w, r).
Proof. reflexivity. Qed.

(** The handler never lets an exception out. *)
Lemma analyze_returns (o : RawObservation) (w : World) :
  snd (analyze o w) = Ok tt.
Proof.
  unfold analyze. rewrite run_try.
  destruct (analyze_body o w) as [w' [e | []]]; reflexivity.
Qed.

(** ** Runs of the handler *)

Lemma run_for_each_emit {A} (l : list A) (ev : A -> event) (w : World) :
  for_each l (fun a => emit (ev a)) w = (after w (map ev l), Ok tt).
Proof.
  revert w. induction l as [| a l IH]; intros w; simpl.
  - now rewrite after_nil.
  - rewrite run_bind, run_emit, IH, after_after. reflexivity.
Qed.

Lemma run_render_risk_factors (o : RawObservation) (w : World) :
  render_risk_factors o w =
    (after w (st_subheader "📊 Risk Factors Analysis" :: risk_factor_lines o),
     Ok tt).
Proof.
  unfold render_risk_factors, risk_factor_lines.
  rewrite run_bind, run_emit.
  destruct (risk_factors o) as [| rf rfs].
  - rewrite run_emit, after_after. reflexivity.
  - rewrite run_bind, run_emit, run_for_each_emit, !after_after. reflexivity.
Qed.

Lemma run_render_result_high (p0 p1 : float) (rest : list float) (w : World) :
  render_result 1 (p0 :: p1 :: rest) w =
    (after w [ st_rule; st_subheader "🎯 Risk Assessment Results";
               risk_high_block (PrimFloat.mul p1 100); recommended_actions ],
     Ok tt).
Proof.
  unfold render_result, risk_pct, mbind, M_bind, result_bind, emit, lift,
    getitem, after.
  simpl. rewrite <- !app_assoc. reflexivity.
Qed.

Lemma run_render_result_low
    (prediction : Z) (p0 : float) (rest : list float) (w : World) :
  prediction <> 1 ->
  render_result prediction (p0 :: rest) w =
    (after w [ st_rule; st_subheader "🎯 Risk Assessment Results";
               risk_low_block (PrimFloat.mul p0 100); healthy_lifestyle_info ],
     Ok tt).
Proof.
  intros Hne. apply Z.eqb_neq in Hne.
  unfold render_result, risk_pct. rewrite Hne.
  unfold mbind, M_bind, result_bind, emit, lift, getitem, after.
  simpl. rewrite <- !app_assoc. reflexivity.
Qed.

(** Every run starts by handing the row of the column list to the scaler,
    and ends normally. *)
Lemma analyze_calls_transform (o : RawObservation) (w : World) :
  exists evs,
    analyze o w =
      (after w
         (called_transform
            (map (fun col => (col, cell (raw_input o) col))
               (expected_columns (globals w))) :: evs),
       Ok tt).
Proof.
  unfold analyze.
  rewrite run_try, analyze_body_split, run_bind, run_feature_vector_builder.
  rewrite run_bind, run_scaler_transform.
  destruct (transform _ _) as [e | scaled_input].
  - exists [st_error e]. rewrite run_emit, after_after. reflexivity.
  - destruct (framed_elim _ (globals w) (framed_after_transform o scaled_input))
      as (evs & r & Hrun).
    rewrite (Hrun (after w _) eq_refl).
    destruct r as [e | []].
    + exists (evs ++ [st_error e]). rewrite run_emit, !after_after. reflexivity.
    + exists evs. rewrite after_after. reflexivity.
Qed.

(** A run in which the three calls return and the row of probabilities has
    the entry that line 179 reads. *)
Lemma analyze_success (o : RawObservation) (w : World)
    (scaled_input : ndarray) (predictions : list Z) (prediction : Z)
    (probabilities : ndarray) (prediction_proba : list float)
    (block : list event) :
  let g := globals w in
  let input_df :=
    map (fun col => (col, cell (raw_input o) col)) (expected_columns g) in
  transform (scaler g) input_df = Ok scaled_input ->
  predict (model g) scaled_input = Ok predictions ->
  getitem predictions 0 = Ok prediction ->
  predict_proba (model g) scaled_input = Ok probabilities ->
  getitem probabilities 0 = Ok prediction_proba ->
  (forall w', render_result prediction prediction_proba w' = (after w' block, Ok tt)) ->
  analyze o w =
    (after w
       ([ called_transform input_df; called_predict scaled_input;
          called_predict_proba scaled_input ] ++ block ++
        st_subheader "📊 Risk Factors Analysis" :: risk_factor_lines o),
     Ok tt).
Proof.
  intros g input_df Ht Hp Hl Hpp Hrow Hblock. subst g input_df.
  unfold analyze.
  rewrite run_try, analyze_body_split, run_bind, run_feature_vector_builder.
  rewrite run_bind, run_scaler_transform, Ht.
  unfold after_transform.
  rewrite run_bind, run_model_predict. simpl globals. rewrite Hp.
  rewrite run_bind, run_lift, Hl.
  rewrite run_bind, run_model_predict_proba. simpl globals. rewrite Hpp.
  rewrite run_bind, run_lift, Hrow.
  rewrite run_bind, Hblock, run_render_risk_factors.
  rewrite !after_after. reflexivity.
Qed.

(** ** The builder inside the handler *)

(** C5: each of the six numeric fields is in the dictionary of line 153
    under its own name with the very value read from its widget (integers
    stay integers, Oldpeak stays the float it was), and keeps it through
    the filling loop; in the row selected by the column list every cell
    under that name is that value, the name being a column of the row
    exactly when the column list has it; and that row, nothing else, is
    what the handler passes to [scaler.transform]. *)
Theorem numeric_fields_unchanged (o : RawObservation) (w : World) :
  let schema := expected_columns (globals w) in
  exists input_df,
    build_input_df (raw_input o) schema = Ok input_df /\
    Forall (fun field =>
      let name := fst field in
      let raw := snd field in
      dict_get name (raw_input o) = Some raw /\
      dict_get name (fill_missing schema (DataFrame_of_record (raw_input o)))
        = Some raw /\
      (forall x, (name, x) ∈ input_df <-> name ∈ schema /\ x = raw))
    (numeric_fields o) /\
    exists evs,
      analyze o w = (after w (called_transform input_df :: evs), Ok tt).
Proof.
  intros schema. subst schema.
  eexists. split; [apply build_input_df_cells |].
  split; [| apply analyze_calls_transform].
  apply Forall_forall. intros [name raw] Hin. simpl.
  pose proof (raw_input_numeric o name raw Hin) as Hget.
  split; [exact Hget |].
  split.
  - rewrite dict_get_fill_missing. unfold DataFrame_of_record. now rewrite Hget.
  - intros x. rewrite elem_of_cells. unfold cell. now rewrite Hget.
Qed.

(** On the sample column list the default observation's row starts with
    the six widget values, untouched. *)
Lemma default_row :
  build_input_df (raw_input default_observation) sample_columns =
    Ok [ ("Age", VInt 40); ("RestingBP", VInt 120); ("Cholesterol", VInt 200);
         ("FastingBS", VInt 0); ("MaxHR", VInt 150); ("Oldpeak", VFloat 1);
         ("Sex_M", VInt 1); ("ChestPainType_ATA", VInt 1);
         ("ChestPainType_NAP", VInt 0); ("ChestPainType_TA", VInt 0);
         ("RestingECG_Normal", VInt 1); ("RestingECG_ST", VInt 0);
         ("ExerciseAngina_Y", VInt 1); ("ST_Slope_Flat", VInt 0);
         ("ST_Slope_Up", VInt 1) ].
Proof. vm_compute. reflexivity. Qed.

(** C3: when the column list does not name the key [{field}_{value}] of a
    selected value, the dictionary still has the key, with 1, and so has
    the frame after the filling loop; the selection by the column list
    raises nothing and gives a row without that key, all of whose labels
    are in the column list; the handler hands that row to the scaler as
    its first step and returns normally. *)
Theorem unseen_value_is_dropped_silently
    (o : RawObservation) (f : categorical) (w : World) :
  let schema := expected_columns (globals w) in
  let key := one_hot_column f (selected f o) in
  (key ∉ schema) ->
  key ∈ dict_keys (raw_input o) /\
  dict_get key (raw_input o) = Some (VInt 1) /\
  dict_get key (fill_missing schema (DataFrame_of_record (raw_input o)))
    = Some (VInt 1) /\
  exists input_df,
    build_input_df (raw_input o) schema = Ok input_df /\
    feature_vector_builder o w = (w, Ok input_df) /\
    (key ∉ columns input_df) /\
    (forall col, col ∈ columns input_df -> col ∈ schema) /\
    exists evs,
      analyze o w = (after w (called_transform input_df :: evs), Ok tt).
Proof.
  intros schema key Hnot. subst schema key.
  pose proof (raw_input_selected o f) as Hget.
  split; [apply dict_get_keys; congruence |].
  split; [exact Hget |].
  split.
  { rewrite dict_get_fill_missing. unfold DataFrame_of_record. now rewrite Hget. }
  eexists. split; [apply build_input_df_cells |].
  split; [apply run_feature_vector_builder |].
  rewrite columns_cells.
  split; [exact Hnot |].
  split; [auto |].
  apply analyze_calls_transform.
Qed.

Lemma unseen_value_is_dropped_silently_witness :
  "Sex_F" ∈ dict_keys (raw_input female_observation) /\
  exists input_df,
    build_input_df (raw_input female_observation) sample_columns = Ok input_df /\
    ("Sex_F" ∉ columns input_df) /\
    exists evs,
      analyze female_observation
        (fresh (sample_globals (constant_model 1 [0.25; 0.75]%float) constant_scaler))
      = (after (fresh (sample_globals (constant_model 1 [0.25; 0.75]%float) constant_scaler))
           (called_transform input_df :: evs), Ok tt).
Proof.
  destruct (unseen_value_is_dropped_silently female_observation Sex
              (fresh (sample_globals (constant_model 1 [0.25; 0.75]%float)
                        constant_scaler)))
    as (Hkey & _ & _ & input_df & Hbuild & _ & Hcols & _ & Hrun).
  - apply (bool_decide_unpack _). vm_compute. exact I.
  - split; [exact Hkey |].
    exists input_df. split; [exact Hbuild |]. split; [exact Hcols | exact Hrun].
Defined.

(** C8: two invocations of the builder on equal observations, under the
    same column list, give the same row; an invocation leaves the globals
    and the trace as they were, so the next one, run right after it, gives
    that row again. *)
Theorem feature_vector_builder_deterministic
    (o1 o2 : RawObservation) (w1 w2 : World) :
  o1 = o2 ->
  expected_columns (globals w1) = expected_columns (globals w2) ->
  snd (feature_vector_builder o1 w1) = snd (feature_vector_builder o2 w2) /\
  fst (feature_vector_builder o1 w1) = w1 /\
  snd (feature_vector_builder o2 (fst (feature_vector_builder o1 w1)))
    = snd (feature_vector_builder o1 w1).
Proof.
  intros <- Hcols.
  rewrite !run_feature_vector_builder. simpl.
  rewrite Hcols. repeat split.
Qed.

Lemma feature_vector_builder_deterministic_witness :
  snd (feature_vector_builder default_observation
         (fresh (sample_globals failing_model failing_scaler)))
  = snd (feature_vector_builder default_observation
           (fresh (sample_globals (constant_model 0 [0.5; 0.5]%float) constant_scaler))).
Proof.
  apply (feature_vector_builder_deterministic
           default_observation default_observation
           (fresh (sample_globals failing_model failing_scaler))
           (fresh (sample_globals (constant_model 0 [0.5; 0.5]%float) constant_scaler)));
    reflexivity.
Defined.

(** ** Inference failures *)

(** C7: when [scaler.transform], [model.predict] or [model.predict_proba]
    raises [e] during a submission, the handler catches it: the run
    returns normally, the trace gets the calls made so far, each once and
    none again after the failure, followed by the error message carrying
    [e], and the globals are those of before.  Whatever a submission did,
    the next one renders what it would render on the initial state. *)
Theorem inference_failure_is_reported
    (o : RawObservation) (w : World) (e : exn) :
  let g := globals w in
  exists input_df,
    feature_vector_builder o w = (w, Ok input_df) /\
    (transform (scaler g) input_df = Raise e ->
     analyze o w = (after w [called_transform input_df; st_error e], Ok tt)) /\
    (forall scaled_input,
       transform (scaler g) input_df = Ok scaled_input ->
       (predict (model g) scaled_input = Raise e ->
        analyze o w =
          (after w [ called_transform input_df; called_predict scaled_input;
                     st_error e ], Ok tt)) /\
       (forall predictions prediction,
          predict (model g) scaled_input = Ok predictions ->
          getitem predictions 0 = Ok prediction ->
          predict_proba (model g) scaled_input = Raise e ->
          analyze o w =
            (after w [ called_transform input_df; called_predict scaled_input;
                       called_predict_proba scaled_input; st_error e ],
             Ok tt))) /\
    globals (fst (analyze o w)) = g /\
    forall o',
      analyze o' (fst (analyze o w)) =
        (after (fst (analyze o w)) (events_of (analyze o') g),
         snd (analyze o' (fresh g))).
Proof.
  intros g. subst g.
  eexists. split; [apply run_feature_vector_builder |].
  split; [| split; [| split]].
  - intros Ht. unfold analyze.
    rewrite run_try, analyze_body_split, run_bind, run_feature_vector_builder.
    rewrite run_bind, run_scaler_transform, Ht, run_emit, after_after.
    reflexivity.
  - intros scaled_input Ht. split.
    + intros Hp. unfold analyze.
      rewrite run_try, analyze_body_split, run_bind, run_feature_vector_builder.
      rewrite run_bind, run_scaler_transform, Ht.
      unfold after_transform.
      rewrite run_bind, run_model_predict. simpl globals. rewrite Hp.
      rewrite run_emit, !after_after. reflexivity.
    + intros predictions prediction Hp Hl Hpp. unfold analyze.
      rewrite run_try, analyze_body_split, run_bind, run_feature_vector_builder.
      rewrite run_bind, run_scaler_transform, Ht.
      unfold after_transform.
      rewrite run_bind, run_model_predict. simpl globals. rewrite Hp.
      rewrite run_bind, run_lift, Hl.
      rewrite run_bind, run_model_predict_proba. simpl globals. rewrite Hpp.
      rewrite run_emit, !after_after. reflexivity.
  - rewrite (framed_analyze o w). reflexivity.
  - intros o'. rewrite (framed_analyze o' (fst (analyze o w))).
    rewrite (framed_analyze o w). reflexivity.
Qed.

Lemma inference_failure_is_reported_witness :
  exists input_df,
    analyze default_observation
      (fresh (sample_globals half_failing_model failing_scaler))
    = (after (fresh (sample_globals half_failing_model failing_scaler))
         [ called_transform input_df;
           st_error (LibraryError "X has 15 features") ], Ok tt) /\
    analyze default_observation
      (fresh (sample_globals failing_model constant_scaler))
    = (after (fresh (sample_globals failing_model constant_scaler))
         [ called_transform input_df;
           called_predict [map (fun _ => 0%float) input_df];
           st_error (LibraryError "predict failed") ], Ok tt) /\
    analyze default_observation
      (fresh (sample_globals half_failing_model constant_scaler))
    = (after (fresh (sample_globals half_failing_model constant_scaler))
         [ called_transform input_df;
           called_predict [map (fun _ => 0%float) input_df];
           called_predict_proba [map (fun _ => 0%float) input_df];
           st_error (LibraryError "predict_proba failed") ], Ok tt).
Proof.
  destruct (inference_failure_is_reported default_observation
              (fresh (sample_globals half_failing_model failing_scaler))
              (LibraryError "X has 15 features"))
    as (df1 & Hb1 & H1 & _).
  destruct (inference_failure_is_reported default_observation
              (fresh (sample_globals failing_model constant_scaler))
              (LibraryError "predict failed"))
    as (df2 & Hb2 & _ & H2 & _).
  destruct (inference_failure_is_reported default_observation
              (fresh (sample_globals half_failing_model constant_scaler))
              (LibraryError "predict_proba failed"))
    as (df3 & Hb3 & _ & H3 & _).
  rewrite run_feature_vector_builder in Hb1, Hb2, Hb3.
  injection Hb1 as <-. injection Hb2 as <-. injection Hb3 as <-.
  eexists. split; [apply H1; reflexivity |].
  split.
  - apply (H2 _ eq_refl). reflexivity.
  - apply (proj2 (H3 _ eq_refl) [1] 1); reflexivity.
Defined.

(** ** The result block *)

(** C4: the percentage of the result block is the product, in binary64, of
    100 and the probability of the predicted class: entry 1 of the row of
    probabilities when the label is 1, entry 0 when it is 0; that product
    is the figure the HIGH block, respectively the LOW block, is rendered
    with (the template prints it with one decimal). *)
Theorem risk_pct_of_predicted_class
    (p0 p1 : float) (rest : list float) (w : World) :
  risk_pct 1 (p0 :: p1 :: rest) = Ok (PrimFloat.mul p1 100) /\
  risk_pct 0 (p0 :: p1 :: rest) = Ok (PrimFloat.mul p0 100) /\
  render_result 1 (p0 :: p1 :: rest) w =
    (after w [ st_rule; st_subheader "🎯 Risk Assessment Results";
               risk_high_block (PrimFloat.mul p1 100); recommended_actions ],
     Ok tt) /\
  render_result 0 (p0 :: p1 :: rest) w =
    (after w [ st_rule; st_subheader "🎯 Risk Assessment Results";
               risk_low_block (PrimFloat.mul p0 100); healthy_lifestyle_info ],
     Ok tt).
Proof.
  split; [reflexivity |]. split; [reflexivity |].
  split; [apply run_render_result_high |].
  apply run_render_result_low. discriminate.
Qed.

Lemma risk_factor_lines_no_block (o : RawObservation) :
  List.filter is_risk_block (risk_factor_lines o) = [].
Proof.
  unfold risk_factor_lines.
  destruct (risk_factors o) as [| rf rfs]; [reflexivity |].
  generalize (rf :: rfs). intros l. simpl.
  induction l as [| a l IH]; [reflexivity | exact IH].
Qed.

(** C10: in a submission whose three inference calls return, the HIGH
    block is on the page exactly when the predicted label is 1, and it is
    then the only result block; for any other label, 0 or not, the only
    result block is the LOW one, and its percentage is 100 times entry 0
    of the row of probabilities. *)
Theorem high_block_iff_label_is_one
    (o : RawObservation) (g : Globals) (input_df : DataFrame)
    (scaled_input : ndarray) (predictions : list Z) (prediction : Z)
    (probabilities : ndarray) (p0 p1 : float) (rest : list float) :
  build_input_df (raw_input o) (expected_columns g) = Ok input_df ->
  transform (scaler g) input_df = Ok scaled_input ->
  predict (model g) scaled_input = Ok predictions ->
  getitem predictions 0 = Ok prediction ->
  predict_proba (model g) scaled_input = Ok probabilities ->
  getitem probabilities 0 = Ok (p0 :: p1 :: rest) ->
  let shown := events_of (analyze o) g in
  ((exists r, risk_high_block r ∈ shown) <-> prediction = 1) /\
  (prediction = 1 ->
   List.filter is_risk_block shown = [risk_high_block (PrimFloat.mul p1 100)]) /\
  (prediction <> 1 ->
   List.filter is_risk_block shown = [risk_low_block (PrimFloat.mul p0 100)]).
Proof.
  intros Hb Ht Hp Hl Hpp Hrow shown.
  rewrite build_input_df_cells in Hb. injection Hb as <-.
  assert (Hhigh : prediction = 1 ->
    List.filter is_risk_block shown = [risk_high_block (PrimFloat.mul p1 100)]).
  { intros ->. subst shown. unfold events_of.
    rewrite (analyze_success o (fresh g) _ _ _ _ _ _ Ht Hp Hl Hpp Hrow
               (run_render_result_high p0 p1 rest)).
    simpl. now rewrite risk_factor_lines_no_block. }
  assert (Hlow : prediction <> 1 ->
    List.filter is_risk_block shown = [risk_low_block (PrimFloat.mul p0 100)]).
  { intros Hne. subst shown. unfold events_of.
    rewrite (analyze_success o (fresh g) _ _ _ _ _ _ Ht Hp Hl Hpp Hrow
               (fun w' => run_render_result_low prediction p0 (p1 :: rest) w' Hne)).
    simpl. now rewrite risk_factor_lines_no_block. }
  split; [| split; assumption].
  split.
  - intros [r Hin].
    destruct (Z.eq_dec prediction 1) as [Heq | Hne]; [exact Heq |].
    assert (Hf : In (risk_high_block r) (List.filter is_risk_block shown)).
    { apply filter_In. split; [now apply list_elem_of_In | reflexivity]. }
    rewrite (Hlow Hne) in Hf. destruct Hf as [Hf | []]. discriminate Hf.
  - intros Heq. exists (PrimFloat.mul p1 100).
    assert (Hf : In (risk_high_block (PrimFloat.mul p1 100))
                   (List.filter is_risk_block shown)).
    { rewrite (Hhigh Heq). now left. }
    apply filter_In in Hf. now apply list_elem_of_In.
Qed.

Lemma high_block_iff_label_is_one_witness :
  List.filter is_risk_block
    (events_of (analyze default_observation)
       (sample_globals (constant_model 2 [0.25; 0.75]%float) constant_scaler))
  = [risk_low_block 25%float] /\
  List.filter is_risk_block
    (events_of (analyze default_observation)
       (sample_globals (constant_model 1 [0.25; 0.75]%float) constant_scaler))
  = [risk_high_block 75%float].
Proof.
  split.
  - refine (proj2 (proj2 (high_block_iff_label_is_one default_observation
             (sample_globals (constant_model 2 [0.25; 0.75]%float) constant_scaler)
             _ _ [2] 2 _ 0.25%float 0.75%float []
             (build_input_df_cells _ _) eq_refl eq_refl eq_refl eq_refl eq_refl)) _).
    discriminate.
  - refine (proj1 (proj2 (high_block_iff_label_is_one default_observation
             (sample_globals (constant_model 1 [0.25; 0.75]%float) constant_scaler)
             _ _ [1] 1 _ 0.25%float 0.75%float []
             (build_input_df_cells _ _) eq_refl eq_refl eq_refl eq_refl eq_refl)) _).
    reflexivity.
Defined.

(** ** Risk factors *)

Lemma risk_factors_by_rule (o : RawObservation) :
  risk_factors o =
    (if age o >? 65 then ["Age > 65"] else []) ++
    (if resting_bp o >? 140 then ["High BP"] else []) ++
    (if cholesterol o >? 240 then ["High Cholesterol"] else []) ++
    (if fasting_bs o =? 1 then ["High Fasting Sugar"] else []) ++
    (if String.eqb (exercise_angina o) "Y" then ["Exercise Angina"] else []) ++
    (if max_hr o <? 100 then ["Low Max HR"] else []).
Proof.
  unfold risk_factors, append_when.
  destruct (age o >? 65), (resting_bp o >? 140), (cholesterol o >? 240),
    (fasting_bs o =? 1), (String.eqb (exercise_angina o) "Y"), (max_hr o <? 100);
    reflexivity.
Qed.

Lemma elem_of_when (c : bool) (x flag : string) :
  x ∈ (if c then [flag] else []) <-> x = flag /\ c = true.
Proof.
  destruct c.
  - rewrite list_elem_of_singleton. intuition.
  - rewrite elem_of_nil. intuition discriminate.
Qed.

Lemma elem_of_risk_factors (o : RawObservation) (x : string) :
  x ∈ risk_factors o <->
    (x = "Age > 65" /\ age o > 65) \/
    (x = "High BP" /\ resting_bp o > 140) \/
    (x = "High Cholesterol" /\ cholesterol o > 240) \/
    (x = "High Fasting Sugar" /\ fasting_bs o = 1) \/
    (x = "Exercise Angina" /\ exercise_angina o = "Y") \/
    (x = "Low Max HR" /\ max_hr o < 100).
Proof.
  rewrite risk_factors_by_rule, !elem_of_app, !elem_of_when.
  rewrite !Z.gtb_gt, Z.eqb_eq, String.eqb_eq, Z.ltb_lt.
  reflexivity.
Qed.

Ltac flag_cases H :=
  apply elem_of_risk_factors in H;
  decompose [or and] H; clear H;
  try discriminate; try lia; try assumption; try contradiction.

(** C6: with age 70 and resting BP 150 and nothing else over its threshold
    the list is exactly ["Age > 65"; "High BP"]; in general each of the six
    flags is in the list exactly when its own test holds, and the list
    holds nothing but these flags. *)
Theorem risk_factors_follow_thresholds (o : RawObservation) :
  (age o = 70 -> resting_bp o = 150 -> cholesterol o <= 240 ->
   fasting_bs o = 0 -> exercise_angina o = "N" -> max_hr o >= 100 ->
   risk_factors o = ["Age > 65"; "High BP"]) /\
  ("Age > 65" ∈ risk_factors o <-> age o > 65) /\
  ("High BP" ∈ risk_factors o <-> resting_bp o > 140) /\
  ("High Cholesterol" ∈ risk_factors o <-> cholesterol o > 240) /\
  ("High Fasting Sugar" ∈ risk_factors o <-> fasting_bs o = 1) /\
  ("Exercise Angina" ∈ risk_factors o <-> exercise_angina o = "Y") /\
  ("Low Max HR" ∈ risk_factors o <-> max_hr o < 100) /\
  (forall x, x ∈ risk_factors o ->
     x ∈ [ "Age > 65"; "High BP"; "High Cholesterol"; "High Fasting Sugar";
           "Exercise Angina"; "Low Max HR" ]).
Proof.
  split.
  { intros Hage Hbp Hchol Hfbs Hang Hhr.
    rewrite risk_factors_by_rule, Hage, Hbp, Hfbs, Hang.
    replace (cholesterol o >? 240) with false by (symmetry; rewrite Z.gtb_ltb; apply Z.ltb_ge; lia).
    replace (max_hr o <? 100) with false by (symmetry; apply Z.ltb_ge; lia).
    reflexivity. }
  repeat split;
    try (intros H; flag_cases H);
    try (intros H; apply elem_of_risk_factors; tauto).
  intros x H. apply elem_of_risk_factors in H.
  rewrite !elem_of_cons. tauto.
Qed.

Lemma risk_factors_follow_thresholds_witness :
  risk_factors elderly_observation = ["Age > 65"; "High BP"] /\
  "Age > 65" ∈ risk_factors elderly_observation.
Proof.
  split.
  - apply (proj1 (risk_factors_follow_thresholds elderly_observation));
      first [reflexivity | vm_compute; discriminate].
  - apply (proj1 (proj2 (risk_factors_follow_thresholds elderly_observation))).
    reflexivity.
Defined.

(** C9: a value exactly on a threshold (age 65, resting BP 140, cholesterol
    240, maximum heart rate 100) adds no flag, while the next integer
    beyond it does; the two remaining flags come from equality tests, with
    1 and with "Y", and any other value adds none. *)
Theorem thresholds_are_strict (o : RawObservation) :
  (age o = 65 -> "Age > 65" ∉ risk_factors o) /\
  (resting_bp o = 140 -> "High BP" ∉ risk_factors o) /\
  (cholesterol o = 240 -> "High Cholesterol" ∉ risk_factors o) /\
  (max_hr o = 100 -> "Low Max HR" ∉ risk_factors o) /\
  (age o = 66 -> "Age > 65" ∈ risk_factors o) /\
  (resting_bp o = 141 -> "High BP" ∈ risk_factors o) /\
  (cholesterol o = 241 -> "High Cholesterol" ∈ risk_factors o) /\
  (max_hr o = 99 -> "Low Max HR" ∈ risk_factors o) /\
  (fasting_bs o <> 1 -> "High Fasting Sugar" ∉ risk_factors o) /\
  (exercise_angina o <> "Y" -> "Exercise Angina" ∉ risk_factors o).
Proof.
  repeat split;
    try (intros Hv H; flag_cases H; fail);
    try (intros Hv; apply elem_of_risk_factors; rewrite Hv; intuition lia).
Qed.

Lemma thresholds_are_strict_witness :
  risk_factors boundary_observation = [] /\
  ("Age > 65" ∉ risk_factors boundary_observation) /\
  ("High BP" ∉ risk_factors boundary_observation) /\
  ("High Cholesterol" ∉ risk_factors boundary_observation) /\
  ("Low Max HR" ∉ risk_factors boundary_observation).
Proof.
  pose proof (thresholds_are_strict boundary_observation)
    as (Hage & Hbp & Hchol & Hhr & _).
  split; [reflexivity |].
  split; [apply Hage; reflexivity |].
  split; [apply Hbp; reflexivity |].
  split; [apply Hchol; reflexivity | apply Hhr; reflexivity].
Defined.

(** * Further properties of the code *)

(** ** The filling loop (lines 168-170) *)




Lemma has_column_fill_missing (cols : list string) (df : DataFrame) (col : string) :
  col ∈ cols -> has_column col (fill_missing cols df) = true.
Proof.
  intros Hin. apply has_column_get. rewrite dict_get_fill_missing.
  apply existsb_eqb_elem in Hin. rewrite Hin.
  now destruct (dict_get col df).
Qed.

Lemma fill_missing_cons (c : string) (cols : list string) (df : DataFrame) :
  fill_missing (c :: cols) df =
    fill_missing cols
      (if negb (has_column c df) then setitem c (VInt 0) df else df).
Proof. reflexivity. Qed.


Lemma fill_missing_all_present (cols : list string) (df : DataFrame) :
  (forall c, c ∈ cols -> has_column c df = true) -> fill_missing cols df = df.
Proof.
  revert df. induction cols as [| c cols IH]; intros df Hall; [reflexivity |].
  rewrite fill_missing_cons, (Hall c) by apply list_elem_of_here. simpl.
  apply IH. intros c' Hin. apply Hall, list_elem_of_further, Hin.
Qed.

(** X2: running the loop again changes nothing, and a frame that already
    has every label of the list goes through it unchanged. *)
Theorem fill_missing_idempotent (cols : list string) (df : DataFrame) :
  fill_missing cols (fill_missing cols df) = fill_missing cols df /\
  ((forall c, c ∈ cols -> has_column c df = true) -> fill_missing cols df = df).
Proof.
  split; [| apply fill_missing_all_present].
  apply fill_missing_all_present.
  intros c Hin. now apply has_column_fill_missing.
Qed.

Lemma fill_missing_idempotent_witness :
  fill_missing ["Age"; "Sex_M"] (raw_input default_observation)
  = raw_input default_observation.
Proof.
  apply (proj2 (fill_missing_idempotent ["Age"; "Sex_M"]
                  (raw_input default_observation))).
  intros c Hin. rewrite !elem_of_cons, elem_of_nil in Hin.
  destruct Hin as [-> | [-> | []]]; reflexivity.
Defined.

(** ** Columns the form does not collect, values the column list omits *)

(** X3: a label of the column list for which the form builds no key (a
    feature the form does not collect) raises nothing: the row is built
    and every cell under that label is 0. *)
Theorem uncollected_column_is_zero
    (o : RawObservation) (schema : list string) (col : string) :
  col ∈ schema ->
  (col ∉ dict_keys (raw_input o)) ->
  exists input_df,
    build_input_df (raw_input o) schema = Ok input_df /\
    (col, VInt 0) ∈ input_df /\
    forall x, (col, x) ∈ input_df -> x = VInt 0.
Proof.
  intros Hin Hkey.
  assert (Hget : dict_get col (raw_input o) = None).
  { destruct (dict_get col (raw_input o)) eqn:E; [| reflexivity].
    elim Hkey. apply dict_get_keys. congruence. }
  eexists. split; [apply build_input_df_cells |].
  split.
  - apply elem_of_cells. split; [exact Hin |]. unfold cell. now rewrite Hget.
  - intros x Hx. apply elem_of_cells in Hx. destruct Hx as [_ ->].
    unfold cell. now rewrite Hget.
Qed.

Lemma uncollected_column_is_zero_witness :
  exists input_df,
    build_input_df (raw_input default_observation) ["Age"; "BMI"; "Sex_M"]
      = Ok input_df /\
    ("BMI", VInt 0) ∈ input_df /\
    forall x, ("BMI", x) ∈ input_df -> x = VInt 0.
Proof.
  apply (uncollected_column_is_zero default_observation
           ["Age"; "BMI"; "Sex_M"] "BMI");
    apply (bool_decide_unpack _); vm_compute; exact I.
Defined.

Lemma dict_get_app (k : string) (d1 d2 : dict) :
  dict_get k (d1 ++ d2) =
    match dict_get k d1 with
    | Some v => Some v
    | None => dict_get k d2
    end.
Proof.
  induction d1 as [| [k0 v0] d1 IH]; simpl; [reflexivity |].
  now destruct (String.eqb k k0).
Qed.

Lemma same_but_for_fields (f : categorical) (o1 o2 : RawObservation) :
  same_but_for f o1 o2 ->
  numeric_fields o1 = numeric_fields o2 /\
  (f <> Sex -> sex o1 = sex o2) /\
  (f <> ChestPainType -> chest_pain o1 = chest_pain o2) /\
  (f <> RestingECG -> resting_ecg o1 = resting_ecg o2) /\
  (f <> ExerciseAngina -> exercise_angina o1 = exercise_angina o2) /\
  (f <> ST_Slope -> st_slope o1 = st_slope o2).
Proof.
  intros [Hnum Hsel]. split; [exact Hnum |].
  repeat split; intros Hne.
  - exact (Hsel Sex (not_eq_sym Hne)).
  - exact (Hsel ChestPainType (not_eq_sym Hne)).
  - exact (Hsel RestingECG (not_eq_sym Hne)).
  - exact (Hsel ExerciseAngina (not_eq_sym Hne)).
  - exact (Hsel ST_Slope (not_eq_sym Hne)).
Qed.

(** X4: the row cannot tell apart two values of a categorical field that
    the column list names neither of: observations that differ only in
    that field, both with a value whose key [{field}_{value}] is not in the
    column list, give the same row. *)
Theorem unlisted_values_give_the_same_row
    (f : categorical) (o1 o2 : RawObservation) (schema : list string) :
  same_but_for f o1 o2 ->
  (one_hot_column f (selected f o1) ∉ schema) ->
  (one_hot_column f (selected f o2) ∉ schema) ->
  build_input_df (raw_input o1) schema = build_input_df (raw_input o2) schema.
Proof.
  intros Hsame H1 H2.
  rewrite !build_input_df_cells. f_equal.
  apply map_ext_in. intros col Hin. apply list_elem_of_In in Hin.
  f_equal. unfold cell.
  assert (E1 : String.eqb col (one_hot_column f (selected f o1)) = false).
  { apply String.eqb_neq. intros ->. contradiction. }
  assert (E2 : String.eqb col (one_hot_column f (selected f o2)) = false).
  { apply String.eqb_neq. intros ->. contradiction. }
  apply same_but_for_fields in Hsame.
  destruct Hsame as (Hnum & Hsex & Hcp & Hecg & Hang & Hslope).
  rewrite !raw_input_items, !dict_get_app, Hnum.
  destruct (dict_get col (numeric_fields o2)); [reflexivity |].
  cbn [dict_get].
  destruct f; cbn [selected] in E1, E2; rewrite ?E1, ?E2;
    rewrite ?Hsex, ?Hcp, ?Hecg, ?Hang, ?Hslope by discriminate;
    reflexivity.
Qed.

Lemma unlisted_values_give_the_same_row_witness :
  build_input_df
    (raw_input
       {| age := 40; sex := "M"; chest_pain := "NAP"; exercise_angina := "Y";
          resting_bp := 120; cholesterol := 200; fasting_bs := 0; max_hr := 150;
          resting_ecg := "Normal"; oldpeak := 1%float; st_slope := "Up" |})
    ["Age"; "Sex_M"; "ChestPainType_ATA"]
  = build_input_df
      (raw_input
         {| age := 40; sex := "M"; chest_pain := "TA"; exercise_angina := "Y";
            resting_bp := 120; cholesterol := 200; fasting_bs := 0;
            max_hr := 150; resting_ecg := "Normal"; oldpeak := 1%float;
            st_slope := "Up" |})
      ["Age"; "Sex_M"; "ChestPainType_ATA"].
Proof.
  apply (unlisted_values_give_the_same_row ChestPainType).
  - split; [reflexivity |]. intros [] Hne; try reflexivity. now elim Hne.
  - apply (bool_decide_unpack _). vm_compute. exact I.
  - apply (bool_decide_unpack _). vm_compute. exact I.
Defined.

(** ** Every run of the handler *)

Lemma run_render_result (prediction : Z) (prediction_proba : list float)
    (w : World) :
  render_result prediction prediction_proba w =
    match risk_pct prediction prediction_proba with
    | inl e =>
        (after w [st_rule; st_subheader "🎯 Risk Assessment Results"], Raise e)
    | inr r =>
        (after w
           ([st_rule; st_subheader "🎯 Risk Assessment Results"] ++
            (if prediction =? 1
             then [risk_high_block r; recommended_actions]
             else [risk_low_block r; healthy_lifestyle_info])),
         Ok tt)
    end.
Proof.
  unfold render_result.
  rewrite run_bind, run_emit, run_bind, run_emit, run_bind, run_lift.
  destruct (risk_pct prediction prediction_proba) as [e | r].
  - now rewrite after_after.
  - destruct (prediction =? 1);
      now rewrite run_bind, !run_emit, !after_after.
Qed.

(** The run of the handler, case by case. *)
Lemma run_analyze (o : RawObservation) (w : World) :
  let g := globals w in
  let input_df :=
    map (fun col => (col, cell (raw_input o) col)) (expected_columns g) in
  let T := called_transform input_df in
  analyze o w =
    (after w
       match transform (scaler g) input_df with
       | inl e => [T; st_error e]
       | inr x =>
         let P := called_predict x in
         let PP := called_predict_proba x in
         match predict (model g) x with
         | inl e => [T; P; st_error e]
         | inr predictions =>
           match getitem predictions 0 with
           | inl e => [T; P; st_error e]
           | inr prediction =>
             match predict_proba (model g) x with
             | inl e => [T; P; PP; st_error e]
             | inr probabilities =>
               match getitem probabilities 0 with
               | inl e => [T; P; PP; st_error e]
               | inr prediction_proba =>
                 match risk_pct prediction prediction_proba with
                 | inl e =>
                     [ T; P; PP; st_rule;
                       st_subheader "🎯 Risk Assessment Results"; st_error e ]
                 | inr r =>
                     [ T; P; PP; st_rule;
                       st_subheader "🎯 Risk Assessment Results" ] ++
                     (if prediction =? 1
                      then [risk_high_block r; recommended_actions]
                      else [risk_low_block r; healthy_lifestyle_info]) ++
                     st_subheader "📊 Risk Factors Analysis"
                       :: risk_factor_lines o
                 end
               end
             end
           end
         end
       end,
     Ok tt).
Proof.
  intros g input_df T. subst g input_df T.
  unfold analyze.
  rewrite run_try, analyze_body_split, run_bind, run_feature_vector_builder.
  rewrite run_bind, run_scaler_transform.
  destruct (transform _ _) as [e | x].
  { now rewrite run_emit, after_after. }
  unfold after_transform.
  rewrite run_bind, run_model_predict. simpl globals.
  destruct (predict _ x) as [e | predictions].
  { now rewrite run_emit, !after_after. }
  rewrite run_bind, run_lift.
  destruct (getitem predictions 0) as [e | prediction].
  { now rewrite run_emit, !after_after. }
  rewrite run_bind, run_model_predict_proba. simpl globals.
  destruct (predict_proba _ x) as [e | probabilities].
  { now rewrite run_emit, !after_after. }
  rewrite run_bind, run_lift.
  destruct (getitem probabilities 0) as [e | prediction_proba].
  { now rewrite run_emit, !after_after. }
  rewrite run_bind, run_render_result.
  destruct (risk_pct prediction prediction_proba) as [e | r].
  { now rewrite run_emit, !after_after. }
  rewrite run_render_risk_factors, !after_after.
  destruct (prediction =? 1); reflexivity.
Qed.

Lemma events_of_analyze (o : RawObservation) (g : Globals) :
  events_of (analyze o) g = trace (fst (analyze o (fresh g))).
Proof. reflexivity. Qed.

Lemma risk_factor_lines_filter (p : event -> bool) (o : RawObservation) :
  p no_red_flags = false -> p risk_factors_detected = false ->
  (forall line, p (st_write line) = false) ->
  List.filter p (risk_factor_lines o) = [].
Proof.
  intros H1 H2 H3. unfold risk_factor_lines.
  destruct (risk_factors o) as [| rf rfs]; simpl; [now rewrite H1 |].
  rewrite H2, H3.
  induction rfs as [| a l IH]; simpl; [reflexivity |]. now rewrite H3.
Qed.

Ltac open_run :=
  unfold events_of; rewrite run_analyze;
  cbn [fst trace after fresh globals app].

(** X5: whatever the loaded scaler and classifier return or raise, one run
    of the handler calls [scaler.transform] exactly once, first and on the
    row built from the form; it calls [model.predict] once if that
    returned and never otherwise; it calls [model.predict_proba] once if
    [predict] returned at least one label, and never otherwise.  No call
    is repeated. *)
Theorem artifacts_called_once_in_order (o : RawObservation) (g : Globals) :
  exists input_df,
    build_input_df (raw_input o) (expected_columns g) = Ok input_df /\
    let calls := List.filter is_call (events_of (analyze o) g) in
    match transform (scaler g) input_df with
    | inl _ => calls = [called_transform input_df]
    | inr x =>
        match predict (model g) x with
        | inr (_ :: _) =>
            calls = [ called_transform input_df; called_predict x;
                      called_predict_proba x ]
        | _ => calls = [called_transform input_df; called_predict x]
        end
    end.
Proof.
  eexists. split; [apply build_input_df_cells |].
  open_run.
  destruct (transform _ _) as [e | x]; [reflexivity |].
  destruct (predict _ x) as [e | [| prediction predictions]];
    [reflexivity | reflexivity |].
  cbn [getitem nth_error].
  destruct (predict_proba _ x) as [e | probabilities]; [reflexivity |].
  destruct (getitem probabilities 0) as [e | prediction_proba]; [reflexivity |].
  destruct (risk_pct prediction prediction_proba) as [e | r]; [reflexivity |].
  destruct (prediction =? 1); cbn [app List.filter is_call];
    now rewrite risk_factor_lines_filter.
Qed.

(** X6: a run of the handler ends in one of two ways.  Either exactly one
    error message is shown, as the last thing, with no result block and no
    risk-factor section; or no error message is shown and the page has
    exactly one result block and, last, the risk-factor section.  The
    risk factors, which do not depend on the classifier, are therefore not
    shown when the inference fails. *)
Theorem error_message_or_results (o : RawObservation) (g : Globals) :
  let evs := events_of (analyze o) g in
  (exists e,
     List.filter is_error evs = [st_error e] /\
     last evs = Some (st_error e) /\
     List.filter is_risk_block evs = [] /\
     st_subheader "📊 Risk Factors Analysis" ∉ evs) \/
  (List.filter is_error evs = [] /\
   (exists block, List.filter is_risk_block evs = [block]) /\
   exists front,
     evs = front ++ st_subheader "📊 Risk Factors Analysis" :: risk_factor_lines o).
Proof.
  assert (Hnot : forall evs e,
    List.filter is_error evs = [] ->
    List.filter is_risk_block evs = [] ->
    (st_subheader "📊 Risk Factors Analysis" ∉ evs) ->
    List.filter is_error (evs ++ [st_error e]) = [st_error e] /\
    last (evs ++ [st_error e]) = Some (st_error e) /\
    List.filter is_risk_block (evs ++ [st_error e]) = [] /\
    st_subheader "📊 Risk Factors Analysis" ∉ evs ++ [st_error e]).
  { intros evs e H1 H2 H3. rewrite !List.filter_app, H1, H2, last_snoc.
    repeat split; try reflexivity.
    rewrite elem_of_app, list_elem_of_singleton. intros [H | H]; [tauto | discriminate]. }
  intros evs. subst evs. open_run.
  destruct (transform _ _) as [e | x].
  { left. exists e. apply (Hnot [_]); try reflexivity.
    rewrite list_elem_of_singleton. discriminate. }
  destruct (predict _ x) as [e | predictions].
  { left. exists e. apply (Hnot [_; _]); try reflexivity.
    rewrite !elem_of_cons, elem_of_nil. intuition discriminate. }
  destruct (getitem predictions 0) as [e | prediction].
  { left. exists e. apply (Hnot [_; _]); try reflexivity.
    rewrite !elem_of_cons, elem_of_nil. intuition discriminate. }
  destruct (predict_proba _ x) as [e | probabilities].
  { left. exists e. apply (Hnot [_; _; _]); try reflexivity.
    rewrite !elem_of_cons, elem_of_nil. intuition discriminate. }
  destruct (getitem probabilities 0) as [e | prediction_proba].
  { left. exists e. apply (Hnot [_; _; _]); try reflexivity.
    rewrite !elem_of_cons, elem_of_nil. intuition discriminate. }
  destruct (risk_pct prediction prediction_proba) as [e | r].
  { left. exists e. apply (Hnot [_; _; _; _; _]); try reflexivity.
    rewrite !elem_of_cons, elem_of_nil. intuition congruence. }
  right.
  destruct (prediction =? 1); cbn [app List.filter is_error is_risk_block];
    rewrite !risk_factor_lines_filter by reflexivity.
  - split; [reflexivity |]. split; [eexists; reflexivity |].
    exists [ called_transform
               (map (fun col => (col, cell (raw_input o) col)) (expected_columns g));
             called_predict x; called_predict_proba x; st_rule;
             st_subheader "🎯 Risk Assessment Results";
             risk_high_block r; recommended_actions ].
    reflexivity.
  - split; [reflexivity |]. split; [eexists; reflexivity |].
    exists [ called_transform
               (map (fun col => (col, cell (raw_input o) col)) (expected_columns g));
             called_predict x; called_predict_proba x; st_rule;
             st_subheader "🎯 Risk Assessment Results";
             risk_low_block r; healthy_lifestyle_info ].
    reflexivity.
Qed.

(** ** Subscripts that can fail (lines 174, 175, 179) *)

(** X7: when the row of probabilities has a single entry (a classifier
    that knows one class only), a predicted label 1 makes line 179 read
    entry 1 and fail: the rule and the heading of the results are already
    on the page, the error message follows, and neither a result block nor
    the risk factors are shown.  Any other label reads entry 0 only, and
    the run completes with the LOW block. *)
Theorem single_probability_row
    (o : RawObservation) (g : Globals) (input_df : DataFrame)
    (x : ndarray) (predictions : list Z) (prediction : Z)
    (probabilities : ndarray) (p0 : float) :
  build_input_df (raw_input o) (expected_columns g) = Ok input_df ->
  transform (scaler g) input_df = Ok x ->
  predict (model g) x = Ok predictions ->
  getitem predictions 0 = Ok prediction ->
  predict_proba (model g) x = Ok probabilities ->
  getitem probabilities 0 = Ok [p0] ->
  (prediction = 1 ->
   events_of (analyze o) g =
     [ called_transform input_df; called_predict x; called_predict_proba x;
       st_rule; st_subheader "🎯 Risk Assessment Results";
       st_error (IndexError 1 1) ]) /\
  (prediction <> 1 ->
   events_of (analyze o) g =
     [ called_transform input_df; called_predict x; called_predict_proba x;
       st_rule; st_subheader "🎯 Risk Assessment Results";
       risk_low_block (PrimFloat.mul p0 100); healthy_lifestyle_info;
       st_subheader "📊 Risk Factors Analysis" ] ++ risk_factor_lines o).
Proof.
  intros Hb Ht Hp Hl Hpp Hrow.
  rewrite build_input_df_cells in Hb. injection Hb as <-.
  split.
  - intros ->. open_run. rewrite Ht, Hp, Hl, Hpp, Hrow. reflexivity.
  - intros Hne. apply Z.eqb_neq in Hne.
    open_run. rewrite Ht, Hp, Hl, Hpp, Hrow.
    unfold risk_pct. rewrite Hne. reflexivity.
Qed.

Lemma single_probability_row_witness :
  exists input_df x,
    events_of (analyze default_observation)
      (sample_globals (single_class_model 1 1%float) constant_scaler)
    = [ called_transform input_df; called_predict x; called_predict_proba x;
        st_rule; st_subheader "🎯 Risk Assessment Results";
        st_error (IndexError 1 1) ] /\
    events_of (analyze default_observation)
      (sample_globals (single_class_model 0 1%float) constant_scaler)
    = [ called_transform input_df; called_predict x; called_predict_proba x;
        st_rule; st_subheader "🎯 Risk Assessment Results";
        risk_low_block 100%float; healthy_lifestyle_info;
        st_subheader "📊 Risk Factors Analysis" ] ++
      risk_factor_lines default_observation.
Proof.
  eexists. eexists. split.
  - refine (proj1 (single_probability_row default_observation
             (sample_globals (single_class_model 1 1%float) constant_scaler)
             _ _ [1] 1 _ 1%float
             (build_input_df_cells _ _) eq_refl eq_refl eq_refl eq_refl eq_refl) _).
    reflexivity.
  - refine (proj2 (single_probability_row default_observation
             (sample_globals (single_class_model 0 1%float) constant_scaler)
             _ _ [0] 0 _ 1%float
             (build_input_df_cells _ _) eq_refl eq_refl eq_refl eq_refl eq_refl) _).
    discriminate.
Defined.

(** X8: an empty array of labels makes [model.predict(...)[0]] fail: the
    error is reported and [model.predict_proba] is never called; an empty
    array of probabilities makes [model.predict_proba(...)[0]] fail after
    the three calls, and nothing of the results is rendered. *)
Theorem empty_prediction_arrays
    (o : RawObservation) (g : Globals) (input_df : DataFrame) (x : ndarray) :
  build_input_df (raw_input o) (expected_columns g) = Ok input_df ->
  transform (scaler g) input_df = Ok x ->
  (predict (model g) x = Ok [] ->
   events_of (analyze o) g =
     [ called_transform input_df; called_predict x;
       st_error (IndexError 0 0) ]) /\
  (forall prediction predictions,
     predict (model g) x = Ok (prediction :: predictions) ->
     predict_proba (model g) x = Ok [] ->
     events_of (analyze o) g =
       [ called_transform input_df; called_predict x; called_predict_proba x;
         st_error (IndexError 0 0) ]).
Proof.
  intros Hb Ht.
  rewrite build_input_df_cells in Hb. injection Hb as <-.
  split.
  - intros Hp. open_run. rewrite Ht, Hp. reflexivity.
  - intros prediction predictions Hp Hpp. open_run.
    rewrite Ht, Hp, Hpp. reflexivity.
Qed.

Lemma empty_prediction_arrays_witness :
  exists input_df x,
    events_of (analyze default_observation)
      (sample_globals empty_model constant_scaler)
    = [ called_transform input_df; called_predict x;
        st_error (IndexError 0 0) ].
Proof.
  eexists. eexists.
  refine (proj1 (empty_prediction_arrays default_observation
           (sample_globals empty_model constant_scaler) _ _
           (build_input_df_cells _ _) eq_refl) _).
  reflexivity.
Defined.

(** ** The list of risk factors and its section (lines 202-214) *)

(** X9: the flags are always listed in the order of the six tests, each at
    most once: the list is a sublist of the six flags in that order, so it
    has no duplicate and at most six entries. *)
Theorem risk_factors_in_fixed_order (o : RawObservation) :
  risk_factors o `sublist_of` all_risk_flags /\
  NoDup (risk_factors o) /\
  (length (risk_factors o) <= 6)%nat.
Proof.
  assert (Hsub : risk_factors o `sublist_of` all_risk_flags).
  { rewrite risk_factors_by_rule. unfold all_risk_flags.
    destruct (age o >? 65), (resting_bp o >? 140), (cholesterol o >? 240),
      (fasting_bs o =? 1), (String.eqb (exercise_angina o) "Y"),
      (max_hr o <? 100);
      cbn [app];
      repeat first [ apply sublist_nil | apply sublist_skip | apply sublist_cons ]. }
  split; [exact Hsub |]. split.
  - eapply sublist_NoDup; [| exact Hsub].
    apply (bool_decide_unpack _). vm_compute. exact I.
  - apply sublist_length in Hsub. exact Hsub.
Qed.

Lemma risk_factors_nil (o : RawObservation) :
  risk_factors o = [] <->
  age o <= 65 /\ resting_bp o <= 140 /\ cholesterol o <= 240 /\
  fasting_bs o <> 1 /\ exercise_angina o <> "Y" /\ max_hr o >= 100.
Proof.
  rewrite risk_factors_by_rule.
  destruct (Z.gtb_spec (age o) 65), (Z.gtb_spec (resting_bp o) 140),
    (Z.gtb_spec (cholesterol o) 240), (Z.eqb_spec (fasting_bs o) 1),
    (String.eqb_spec (exercise_angina o) "Y"), (Z.ltb_spec (max_hr o) 100);
    cbn [app]; split; intros Hx; try discriminate Hx; try reflexivity;
    try (repeat split; first [lia | assumption]);
    try (exfalso; decompose [and] Hx; first [lia | contradiction]).
Qed.

(** X10: the section of the risk factors shows the message that no red
    flag was detected exactly when none of the six tests holds; otherwise
    it shows the warning, and in both cases one bullet line per flag of
    the list, in the list's order. *)
Theorem risk_factor_section (o : RawObservation) (g : Globals) :
  let evs := events_of (render_risk_factors o) g in
  let none :=
    age o <= 65 /\ resting_bp o <= 140 /\ cholesterol o <= 240 /\
    fasting_bs o <> 1 /\ exercise_angina o <> "Y" /\ max_hr o >= 100 in
  (no_red_flags ∈ evs <-> none) /\
  (risk_factors_detected ∈ evs <-> ~ none) /\
  List.filter is_write evs =
    map (fun rf => st_write ("• " +:+ rf)) (risk_factors o).
Proof.
  intros evs none. subst evs none.
  unfold events_of. rewrite run_render_risk_factors.
  cbn [fst trace after fresh app]. unfold risk_factor_lines.
  rewrite <- risk_factors_nil.
  destruct (risk_factors o) as [| rf rfs].
  - split; [| split].
    + split; [reflexivity |]. intros _. right. left.
    + split; [| intros H; now elim H].
      rewrite !elem_of_cons, elem_of_nil. intuition discriminate.
    + reflexivity.
  - assert (Hw : forall l : list string,
        List.filter is_write (map (fun rf => st_write ("• " +:+ rf)) l)
        = map (fun rf => st_write ("• " +:+ rf)) l).
    { induction l as [| a l IH]; simpl; [reflexivity | now rewrite IH]. }
    assert (Hn : forall (ev : event) (l : list string),
        (forall line, ev <> st_write line) ->
        ev ∉ map (fun rf => st_write ("• " +:+ rf)) l).
    { intros ev l Hev Hin. apply list_elem_of_fmap in Hin.
      destruct Hin as (rf' & -> & _). now apply (Hev ("• " +:+ rf')). }
    split; [| split].
    + split; [| discriminate].
      rewrite !elem_of_cons. intros [H | [H | H]]; try discriminate H.
      exfalso. revert H. apply Hn. discriminate.
    + split; [discriminate |]. intros _. right. left.
    + cbn [List.filter is_write]. now rewrite (Hw (rf :: rfs)).
Qed.

(** ** Loading the artifacts and the run as a whole (lines 78-88, 1-225) *)

(** X11: the three files are opened in the order model, scaler, column
    list, and the first that fails ends the run: the files after it are
    not opened, the error message carrying its exception is the last thing
    on the page, and neither the form, nor the button, nor the handler,
    nor the footer is reached. *)
Theorem load_failure_stops_the_run (s : Session) (e : exn) :
  (KNN_Heart_pkl (files s) = Raise e ->
   script s =
     [ page_config; style_sheet; joblib_load "KNN_Heart.pkl";
       models_not_found e ]) /\
  (forall m,
     KNN_Heart_pkl (files s) = Ok m ->
     scaler_pkl (files s) = Raise e ->
     script s =
       [ page_config; style_sheet; joblib_load "KNN_Heart.pkl";
         joblib_load "scaler.pkl"; models_not_found e ]) /\
  (forall m sc,
     KNN_Heart_pkl (files s) = Ok m ->
     scaler_pkl (files s) = Ok sc ->
     columns_pkl (files s) = Raise e ->
     script s =
       [ page_config; style_sheet; joblib_load "KNN_Heart.pkl";
         joblib_load "scaler.pkl"; joblib_load "columns.pkl";
         models_not_found e ]).
Proof.
  unfold script, load_models, load_models_body, load, mbind, Startup_bind.
  split; [| split].
  - intros ->. reflexivity.
  - intros m -> ->. reflexivity.
  - intros m sc -> -> ->. reflexivity.
Qed.

Lemma load_failure_stops_the_run_witness :
  script {| files := sample_files (Ok failing_model)
                       (Raise (LibraryError "No such file: scaler.pkl"));
            widgets := default_observation; button_pressed := true |}
  = [ page_config; style_sheet; joblib_load "KNN_Heart.pkl";
      joblib_load "scaler.pkl";
      models_not_found (LibraryError "No such file: scaler.pkl") ].
Proof.
  apply (proj1 (proj2 (load_failure_stops_the_run
           {| files := sample_files (Ok failing_model)
                         (Raise (LibraryError "No such file: scaler.pkl"));
              widgets := default_observation; button_pressed := true |}
           (LibraryError "No such file: scaler.pkl"))) failing_model);
    reflexivity.
Defined.

(** X12: once the three files are loaded, a run renders the header, the
    form, the summary and the button, runs the handler only if the button
    was pressed, on the values the widgets hold and the objects just
    loaded, and always ends with the footer: no failure of the inference
    keeps the rest of the page from being rendered. *)
Theorem loaded_run_reaches_footer
    (s : Session) (m : Model) (sc : Scaler) (cols : list string) :
  KNN_Heart_pkl (files s) = Ok m ->
  scaler_pkl (files s) = Ok sc ->
  columns_pkl (files s) = Ok cols ->
  let g := {| model := m; scaler := sc; expected_columns := cols |} in
  script s =
    [ page_config; style_sheet; joblib_load "KNN_Heart.pkl";
      joblib_load "scaler.pkl"; joblib_load "columns.pkl";
      main_header; about_expander; input_widgets;
      summary_metrics (widgets s); analyze_button ] ++
    (if button_pressed s
     then map from_handler (events_of (analyze (widgets s)) g)
     else []) ++
    [footer_rule; footer].
Proof.
  intros Hm Hs Hc g. subst g.
  unfold script, load_models, load_models_body, load, mbind, Startup_bind, mret,
    Startup_ret.
  rewrite Hm, Hs, Hc. cbn [app].
  destruct (button_pressed s); [| reflexivity].
  unfold events_of.
  pose proof (analyze_returns (widgets s)
                (fresh {| model := m; scaler := sc; expected_columns := cols |}))
    as Hret.
  destruct (analyze (widgets s) _) as [w [e | []]]; [discriminate Hret |].
  reflexivity.
Qed.

Lemma loaded_run_reaches_footer_witness :
  last
    (script {| files := sample_files (Ok failing_model) (Ok failing_scaler);
               widgets := default_observation; button_pressed := true |})
  = Some footer.
Proof.
  rewrite (loaded_run_reaches_footer
             {| files := sample_files (Ok failing_model) (Ok failing_scaler);
                widgets := default_observation; button_pressed := true |}
             failing_model failing_scaler sample_columns
             eq_refl eq_refl eq_refl).
  reflexivity.
Defined.

(** ** Keys of the form's dictionary, complete column lists *)

(** X13: whatever strings are selected, the dictionary of line 153 has
    eleven entries under eleven different keys: a synthesized key
    [{field}_{value}] never collides with the name of a numeric field or
    with the key of another field, so no entry of the display overwrites
    another. *)
Theorem raw_input_keys_distinct (o : RawObservation) :
  length (raw_input o) = 11%nat /\
  NoDup (dict_keys (raw_input o)) /\
  dict_keys (raw_input o) =
    [ "Age"; "RestingBP"; "Cholesterol"; "FastingBS"; "MaxHR"; "Oldpeak";
      "Sex_" +:+ sex o; "ChestPainType_" +:+ chest_pain o;
      "RestingECG_" +:+ resting_ecg o;
      "ExerciseAngina_" +:+ exercise_angina o; "ST_Slope_" +:+ st_slope o ].
Proof.
  split; [reflexivity |]. split; [| reflexivity].
  rewrite raw_input_items. unfold dict_keys. cbn [numeric_fields app map fst].
  spell_keys.
  repeat (apply NoDup_cons; split;
          [ rewrite ?elem_of_cons, elem_of_nil; intuition congruence |]).
  apply NoDup_nil_2.
Qed.

Lemma widget_selection_in_domain (o : RawObservation) (f : categorical) :
  widget_values o -> selected f o ∈ domain f.
Proof.
  unfold widget_values. intros H. decompose [and] H. now destruct f.
Qed.

(** X14: when the column list names the one-hot column of every option of
    a select box, every observation the widgets can give has exactly one
    hot column of that field in the row: the one of the selected option,
    with 1, all the others being there with 0. *)
Theorem complete_column_list_gives_one_hot
    (o : RawObservation) (schema : list string) (f : categorical) :
  widget_values o ->
  (forall v, v ∈ domain f -> one_hot_column f v ∈ schema) ->
  exists input_df,
    build_input_df (raw_input o) schema = Ok input_df /\
    exactly_one_hot f input_df /\
    (one_hot_column f (selected f o), VInt 1) ∈ input_df /\
    forall v, v ∈ domain f -> v <> selected f o ->
      (one_hot_column f v, VInt 0) ∈ input_df /\
      (one_hot_column f v, VInt 1) ∉ input_df.
Proof.
  intros Hw Hall.
  pose proof (widget_selection_in_domain o f Hw) as Hdom.
  eexists. split; [apply build_input_df_cells |].
  assert (Hcells : forall v x,
    (one_hot_column f v, x)
      ∈ map (fun col => (col, cell (raw_input o) col)) schema <->
    one_hot_column f v ∈ schema /\
    x = if String.eqb v (selected f o) then VInt 1 else VInt 0).
  { intros v x. now rewrite elem_of_cells, one_hot_cells. }
  assert (Hsel : (one_hot_column f (selected f o), VInt 1)
                   ∈ map (fun col => (col, cell (raw_input o) col)) schema).
  { apply Hcells. split; [now apply Hall |]. now rewrite String.eqb_refl. }
  split; [| split; [exact Hsel |]].
  - exists (selected f o). split; [exact Hdom |]. split; [exact Hsel |].
    intros v' _ Hin. apply Hcells in Hin. destruct Hin as [_ Hx].
    destruct (String.eqb_spec v' (selected f o)); [assumption | discriminate].
  - intros v Hv Hne. split.
    + apply Hcells. split; [now apply Hall |].
      destruct (String.eqb_spec v (selected f o)); [contradiction | reflexivity].
    + intros Hin. apply Hcells in Hin. destruct Hin as [_ Hx].
      destruct (String.eqb_spec v (selected f o)); [contradiction | discriminate].
Qed.

Lemma complete_column_list_gives_one_hot_witness :
  exists input_df,
    build_input_df (raw_input female_observation) ["Age"; "Sex_F"; "Sex_M"]
      = Ok input_df /\
    exactly_one_hot Sex input_df /\
    ("Sex_F", VInt 1) ∈ input_df.
Proof.
  destruct (complete_column_list_gives_one_hot female_observation
              ["Age"; "Sex_F"; "Sex_M"] Sex)
    as (input_df & Hb & Hone & Hsel & _).
  - apply sample_observations_from_widgets.
  - intros v Hv. simpl in Hv. unfold sex_options in Hv.
    rewrite !elem_of_cons, elem_of_nil in Hv.
    destruct Hv as [-> | [-> | []]];
      apply (bool_decide_unpack _); vm_compute; exact I.
  - exists input_df. split; [exact Hb |]. split; [exact Hone | exact Hsel].
Defined.
